(** * RealTimeAPI_Detect: the orchestration of [main.py], embedded in Rocq

    The program records a clip, submits it to the Detect API, polls the
    job status, forwards the redacted audio to a realtime speech service
    over a websocket and writes the spoken reply to disk.

    Everything the script does on its own is control flow over values it
    receives from the outside.  The embedding therefore has three layers:

    - Python values as they come out of [json.loads] ([json], with the
      dictionary as a [gmap]), with truthiness, [.get], subscripting,
      [in] and iteration, each raising the exception Python raises;
    - the library calls the script relies on: [base64] (encoder, and the
      lenient decoder of [binascii.a2b_base64]), [str.split], and the
      constructor and the three framing setters of [pydub.AudioSegment];
    - the script itself, in a monad that threads the local files,
      appends to a trace of observable actions, and carries exceptions.

    The remote services are a script of replies ([world]); a run that
    asks for a reply the script does not contain stops as [Blocked]. *)

From Stdlib Require Import ZArith NArith Ascii String Strings.Byte Bool Lia.
From stdpp Require Import gmap strings list fin_maps pretty.

Local Open Scope string_scope.
Local Open Scope Z_scope.

(** ** Exceptions and results *)

Inductive exn : Type :=
| AttributeError
| TypeError
| KeyError
| ValueError
| IndexError
| BinasciiError          (* binascii.Error *)
| JSONDecodeError
| FileNotFoundError
| CouldntDecodeError     (* pydub: the file is not decodable audio *)
| PortAudioError         (* sounddevice: no input device *)
| ConnectionError        (* websockets: the handshake failed *)
| ConnectionClosed.      (* websockets: used after the server closed *)

Inductive result (A : Type) : Type :=
| Ok (a : A)
| Raise (e : exn).
Arguments Ok {A} a.
Arguments Raise {A} e.

Definition rbind {A B} (r : result A) (k : A -> result B) : result B :=
  match r with
  | Ok a => k a
  | Raise e => Raise e
  end.

Abbreviation bytes := (list byte).

(** ** Base64, as Python's [base64] module computes it *)

Module Base64.

Definition alphabet : string :=
  "ABCDEFGHIJKLMNOPQRSTUVWXYZabcdefghijklmnopqrstuvwxyz0123456789+/".

Definition pad : ascii := "="%char.

(** The character of a sextet. *)
Definition enc_char (n : N) : ascii :=
  match String.get (N.to_nat n) alphabet with
  | Some c => c
  | None => pad
  end.

(** The sextet of a character, [None] outside the alphabet
    (the table [table_a2b_base64] of binascii). *)
Definition dec_char (c : ascii) : option N :=
  let n := N_of_ascii c in
  if ((65 <=? n) && (n <=? 90))%N then Some (n - 65)%N
  else if ((97 <=? n) && (n <=? 122))%N then Some (n - 71)%N
  else if ((48 <=? n) && (n <=? 57))%N then Some (n + 4)%N
  else if (n =? 43)%N then Some 62%N
  else if (n =? 47)%N then Some 63%N
  else None.

Definition byte_of_N (n : N) : byte :=
  match Byte.of_N (n mod 256) with
  | Some b => b
  | None => x00
  end.

(** [base64.b64encode]: three bytes give four characters; a tail of one
    or two bytes is padded with [=]. *)
Fixpoint b64encode (bs : bytes) : string :=
  match bs with
  | [] => ""
  | [a] =>
      let x := Byte.to_N a in
      String (enc_char (x / 4))
        (String (enc_char ((x mod 4) * 16))
           (String pad (String pad "")))
  | [a; b] =>
      let x := Byte.to_N a in
      let y := Byte.to_N b in
      String (enc_char (x / 4))
        (String (enc_char ((x mod 4) * 16 + y / 16))
           (String (enc_char ((y mod 16) * 4))
              (String pad "")))
  | a :: b :: c :: rest =>
      let x := Byte.to_N a in
      let y := Byte.to_N b in
      let z := Byte.to_N c in
      String (enc_char (x / 4))
        (String (enc_char ((x mod 4) * 16 + y / 16))
           (String (enc_char ((y mod 16) * 4 + z / 64))
              (String (enc_char (z mod 64))
                 (b64encode rest))))
  end%N.

Definition emit (b : byte) (r : result bytes) : result bytes :=
  match r with
  | Ok l => Ok (b :: l)
  | Raise e => Raise e
  end.

(** [binascii.a2b_base64] without strict mode, the decoder behind
    [base64.b64decode(s)] with its default [validate=False]:
    characters outside the alphabet are skipped; a [=] that completes
    the padding of a quad ends the decoding, whatever follows it; any
    other [=] is skipped; input that ends inside a quad is an error.
    [quad_pos], [leftchar] and [pads] are the decoder's registers. *)
Fixpoint a2b_base64 (s : string) (quad_pos leftchar pads : N) : result bytes :=
  match s with
  | EmptyString =>
      if (quad_pos =? 0)%N then Ok [] else Raise BinasciiError
  | String ch rest =>
      if Ascii.eqb ch pad then
        if ((2 <=? quad_pos) && (4 <=? quad_pos + (pads + 1)))%N then Ok []
        else a2b_base64 rest quad_pos leftchar
               (if (2 <=? quad_pos)%N then pads + 1 else pads)%N
      else
        match dec_char ch with
        | None => a2b_base64 rest quad_pos leftchar pads
        | Some v =>
            match quad_pos with
            | 0%N => a2b_base64 rest 1 v 0
            | 1%N => emit (byte_of_N (leftchar * 4 + v / 16))
                       (a2b_base64 rest 2 (v mod 16) 0)
            | 2%N => emit (byte_of_N (leftchar * 16 + v / 4))
                       (a2b_base64 rest 3 (v mod 4) 0)
            | _ => emit (byte_of_N (leftchar * 64 + v))
                       (a2b_base64 rest 0 0 0)
            end%N
        end
  end.

Definition is_ascii_char (c : ascii) : bool := (N_of_ascii c <? 128)%N.

Fixpoint is_ascii (s : string) : bool :=
  match s with
  | EmptyString => true
  | String c rest => is_ascii_char c && is_ascii rest
  end.

(** [base64.b64decode] applied to a [str]: the string is first encoded
    as ASCII ([ValueError] otherwise), then decoded leniently. *)
Definition b64decode (s : string) : result bytes :=
  if is_ascii s then a2b_base64 s 0 0 0 else Raise ValueError.

End Base64.

(** ** Python values

    What [json.loads] and [response.json()] return.  [JNull] is [None],
    which is also what [detect_audio] and [check_status] return for an
    absent result.  Numbers are integers here: no claim reads a float. *)

#[warnings="-register-all"]
Inductive json : Type :=
| JNull
| JBool (b : bool)
| JNum (n : Z)
| JStr (s : string)
| JArr (l : list json)
| JObj (m : gmap string json).

(** [bool(v)] *)
Definition truthy (v : json) : bool :=
  match v with
  | JNull => false
  | JBool b => b
  | JNum n => negb (n =? 0)
  | JStr s => negb (String.eqb s "")
  | JArr l => match l with [] => false | _ => true end
  | JObj m => negb (bool_decide (m = ∅))
  end.

(** [v == s] for a string literal [s] *)
Definition py_eq_str (v : json) (s : string) : bool :=
  match v with
  | JStr t => String.eqb t s
  | _ => false
  end.

(** [v.get(k)]: only a dict has the method. *)
Definition py_get (v : json) (k : string) : result json :=
  match v with
  | JObj m => Ok (default JNull (m !! k))
  | _ => Raise AttributeError
  end.

(** [v[k]] for a string key [k]. *)
Definition py_getitem (v : json) (k : string) : result json :=
  match v with
  | JObj m => match m !! k with Some x => Ok x | None => Raise KeyError end
  | _ => Raise TypeError
  end.

Fixpoint is_substring (k s : string) : bool :=
  String.prefix k s ||
  match s with
  | EmptyString => false
  | String _ rest => is_substring k rest
  end.

(** [k in v] for a string [k]: key of a dict, element of a list,
    substring of a string; other values are not containers. *)
Definition py_contains (k : string) (v : json) : result bool :=
  match v with
  | JObj m => Ok (bool_decide (is_Some (m !! k)))
  | JArr l => Ok (existsb (fun e => py_eq_str e k) l)
  | JStr s => Ok (is_substring k s)
  | _ => Raise TypeError
  end.

Fixpoint chars (s : string) : list json :=
  match s with
  | EmptyString => []
  | String c rest => JStr (String c "") :: chars rest
  end.

(** [for x in v]: the elements of a list, the keys of a dict, the
    characters of a string. *)
Definition py_iter (v : json) : result (list json) :=
  match v with
  | JArr l => Ok l
  | JObj m => Ok ((fun kv => JStr (fst kv)) <$> map_to_list m)
  | JStr s => Ok (chars s)
  | _ => Raise TypeError
  end.

(** [s.split(sep)] for a one-character separator. *)
Fixpoint split (sep : ascii) (s : string) : list string :=
  match s with
  | EmptyString => [""]
  | String c rest =>
      if Ascii.eqb c sep then "" :: split sep rest
      else match split sep rest with
           | [] => [String c ""]
           | w :: ws => String c w :: ws
           end
  end.

(** [v.split('/')]: only a string has the method. *)
Definition py_split (v : json) (sep : ascii) : result (list string) :=
  match v with
  | JStr s => Ok (split sep s)
  | _ => Raise AttributeError
  end.

(** [base64.b64decode(v)] on a Python value *)
Definition py_b64decode (v : json) : result bytes :=
  match v with
  | JStr s => Base64.b64decode s
  | _ => Raise TypeError
  end.

(** [acc += v] for a string [acc] *)
Definition py_str_iadd (acc : string) (v : json) : result string :=
  match v with
  | JStr s => Ok (acc +:+ s)
  | _ => Raise TypeError
  end.

(** ** The outside world *)

(** A [requests.Response]: [json_body] is what [response.json()] returns,
    [None] when the body is not JSON and the call raises. *)
Record response : Type := {
  status_code : Z;
  text : string;
  json_body : option json
}.

(** A [pydub.AudioSegment]: the samples and the three framing
    parameters. *)
Record AudioSegment : Type := {
  raw_data : bytes;
  sample_width : Z;
  frame_rate : Z;
  channels : Z
}.

(** What pydub and its codecs compute on sample data; the script never
    looks inside.  [from_file] decodes a container ([None]: not
    decodable), [ratecv], [remix] and [lin2lin] are the resampling,
    channel and width conversions of the samples, [wav_container] is the
    file [export(format="wav")] writes. *)
Record pydub : Type := {
  from_file : bytes -> option AudioSegment;
  ratecv : Z -> AudioSegment -> bytes;
  remix : Z -> AudioSegment -> bytes;
  lin2lin : Z -> AudioSegment -> bytes;
  wav_container : AudioSegment -> bytes
}.

(** How the websocket is closed once its messages are delivered: with
    code 1000 or 1001 (or none), which ends [async for] normally, or
    with another code, which makes it raise. *)
Inductive closing : Type :=
| ClosedOK
| ClosedError.

(** The replies of one run: the file the recorder leaves in [input.wav]
    ([None]: no input device), the reply to the submit, the replies to
    the successive polls, and the messages of the websocket up to its
    close ([None] for the session: the handshake fails; [None] for a
    message: text that [json.loads] rejects); how many messages of the
    client the connection takes before the server has closed it (a
    [send] after that raises), and how the connection is closed after
    the last message delivered. *)
Record world : Type := {
  mic : option bytes;
  detect_reply : response;
  status_replies : list response;
  ws_session : option (list (option json));
  ws_accepts : nat;
  ws_closing : closing
}.

(** The environment variables read at start-up, taken as set. *)
Record config : Type := {
  API_KEY : string;
  SKYFLOW_ACCOUNT_ID : string;
  BEARER_TOKEN : string;
  VAULT_ID : string;
  URL : string;
  URL_WS : string
}.

(** Observable actions, in the order the run performs them. *)
Inductive event : Type :=
| Print (line : string)
| MicRecord (frames samplerate nchannels : Z)
| HttpPost (url : string) (headers : gmap string string) (body : json)
| HttpGet (url : string) (headers : gmap string string)
| Sleep (seconds : Z)
| WsConnect (url : string) (extra_headers : gmap string string)
| WsSend (msg : json).

(** ** The monad of the script: local files, trace, exceptions *)

Inductive outcome (A : Type) : Type :=
| Ret (a : A)
| Exc (e : exn)
| Blocked.
Arguments Ret {A} a.
Arguments Exc {A} e.
Arguments Blocked {A}.

Definition M (A : Type) : Type :=
  gmap string bytes -> gmap string bytes * list event * outcome A.

#[global] Instance M_ret : MRet M := fun A a fs => (fs, [], Ret a).

#[global] Instance M_bind : MBind M := fun A B k m fs =>
  match m fs with
  | (fs1, t1, Ret a) =>
      match k a fs1 with
      | (fs2, t2, o) => (fs2, (t1 ++ t2)%list, o)
      end
  | (fs1, t1, Exc e) => (fs1, t1, Exc e)
  | (fs1, t1, Blocked) => (fs1, t1, Blocked)
  end.

Definition raise {A} (e : exn) : M A := fun fs => (fs, [], Exc e).
Definition blocked {A} : M A := fun fs => (fs, [], Blocked).
Definition act (e : event) : M unit := fun fs => (fs, [e], Ret tt).
Definition print (line : string) : M unit := act (Print line).

Definition lift {A} (r : result A) : M A :=
  match r with
  | Ok a => mret a
  | Raise e => raise e
  end.

(** [open(path, "rb").read()] *)
Definition read_file (path : string) : M bytes := fun fs =>
  match fs !! path with
  | Some data => (fs, [], Ret data)
  | None => (fs, [], Exc FileNotFoundError)
  end.

(** [open(path, "wb")] creates or truncates the file. *)
Definition open_wb (path : string) : M unit := fun fs =>
  (<[path := []]> fs, [], Ret tt).

(** [f.write(data)] on the file just opened *)
Definition write_file (path : string) (data : bytes) : M unit := fun fs =>
  (<[path := data]> fs, [], Ret tt).

(** [l[-1]] *)
Definition py_last {A} (l : list A) : result A :=
  match last l with
  | Some x => Ok x
  | None => Raise IndexError
  end.

(** [requests.post] and [requests.get]: the request goes out, the reply
    is the one the world has for it. *)
Definition requests_post (url : string) (headers : gmap string string)
    (data : json) (reply : response) : M response :=
  act (HttpPost url headers data);; mret reply.

Definition requests_get (url : string) (headers : gmap string string)
    (reply : response) : M response :=
  act (HttpGet url headers);; mret reply.

(** [response.json()] *)
Definition response_json (r : response) : M json :=
  match json_body r with
  | Some j => mret j
  | None => raise JSONDecodeError
  end.

(** [json.loads(message)] on a websocket message *)
Definition json_loads (message : option json) : M json :=
  match message with
  | Some j => mret j
  | None => raise JSONDecodeError
  end.

(** [AudioSegment(data=..., sample_width=..., frame_rate=...,
    channels=...)]: the constructor of pydub rejects data that is not a
    whole number of frames. *)
Definition AudioSegment_init (data : bytes) (width rate nchannels : Z)
    : result AudioSegment :=
  if Z.of_nat (length data) mod (width * nchannels) =? 0 then
    Ok {| raw_data := data; sample_width := width; frame_rate := rate;
          channels := nchannels |}
  else Raise ValueError.

(** ** The script *)

Section Script.

Variable cfg : config.
Variable codec : pydub.
Variable w : world.

(** [record_audio(duration, fs)] *)
Definition record_audio (duration fs : Z) : M string :=
  print "Recording...";;
  act (MicRecord (duration * fs) fs 1);;
  match mic w with
  | None => raise PortAudioError
  | Some wav =>
      write_file "input.wav" wav;;
      print "Recording complete.";;
      mret "input.wav"
  end.

(** [convert_wav_to_base64(file_path)] *)
Definition convert_wav_to_base64 (file_path : string) : M string :=
  data ← read_file file_path;
  mret (Base64.b64encode data).

(** The three setters of [AudioSegment]: each returns the segment
    itself when the parameter already has the value, and otherwise a
    segment with converted samples and the new parameter. *)
Definition set_frame_rate (rate : Z) (a : AudioSegment) : AudioSegment :=
  if frame_rate a =? rate then a
  else {| raw_data := ratecv codec rate a; sample_width := sample_width a;
          frame_rate := rate; channels := channels a |}.

Definition set_channels (n : Z) (a : AudioSegment) : AudioSegment :=
  if channels a =? n then a
  else {| raw_data := remix codec n a; sample_width := sample_width a;
          frame_rate := frame_rate a; channels := n |}.

Definition set_sample_width (width : Z) (a : AudioSegment) : AudioSegment :=
  if sample_width a =? width then a
  else {| raw_data := lin2lin codec width a; sample_width := width;
          frame_rate := frame_rate a; channels := channels a |}.

(** The conversion of a segment in [audio_to_base64], line 45. *)
Definition to_model_format (audio : AudioSegment) : AudioSegment :=
  set_sample_width 2 (set_channels 1 (set_frame_rate 24000 audio)).

(** [audio_to_base64(audio_file_path)] *)
Definition audio_to_base64 (audio_file_path : string) : M string :=
  data ← read_file audio_file_path;
  audio ← match from_file codec data with
          | Some a => mret a
          | None => raise CouldntDecodeError
          end;
  let audio := to_model_format audio in
  let pcm_audio := raw_data audio in
  let pcm_base64 := Base64.b64encode pcm_audio in
  mret pcm_base64.

(** [await ws.send(json.dumps(msg))], when [sent] messages have gone
    out before it: the message goes out unless the server has closed the
    connection. *)
Definition ws_send (sent : nat) (msg : json) : M unit :=
  if (sent <? ws_accepts w)%nat then act (WsSend msg)
  else raise ConnectionClosed.

(** [send_audio(ws, base64_audio)] *)
Definition send_audio (base64_audio : string) : M unit :=
  let event :=
    JObj (list_to_map
      [("type", JStr "conversation.item.create");
       ("item", JObj (list_to_map
          [("type", JStr "message");
           ("role", JStr "user");
           ("content", JArr
              [JObj (list_to_map
                 [("type", JStr "input_audio");
                  ("audio", JStr base64_audio)])])]))]) in
  ws_send 0 event;;
  ws_send 1 (JObj (list_to_map [("type", JStr "response.create")])).

Definition detect_headers : gmap string string :=
  list_to_map
    [("Content-Type", "application/json");
     ("x-skyflow-account-id", SKYFLOW_ACCOUNT_ID cfg);
     ("Authorization", "Bearer " +:+ BEARER_TOKEN cfg)].

Definition detect_payload (base64_audio : string) : json :=
  JObj (list_to_map
    [("file", JStr base64_audio);
     ("data_format", JStr "wav");
     ("audio", JObj (list_to_map
        [("output_processed_audio", JBool true);
         ("options", JObj (list_to_map
            [("bleep_gain", JNum (-30));
             ("bleep_start_padding", JNum 0);
             ("bleep_stop_padding", JNum 0)]))]));
     ("accuracy", JStr "high_multilingual");
     ("restrict_entity_types",
        JArr [JStr "location"; JStr "ssn"; JStr "account_number"]);
     ("input_type", JStr "BASE64");
     ("vault_id", JStr (VAULT_ID cfg))]).

(** [detect_audio(file_path)]; [reply] is the service's answer to the
    request. *)
Definition detect_audio (file_path : string) (reply : response) : M json :=
  base64_audio ← convert_wav_to_base64 file_path;
  let url := URL cfg +:+ "/v1/detect/file" in
  let headers := detect_headers in
  let payload := detect_payload base64_audio in
  response ← requests_post url headers payload reply;
  if status_code response =? 200 then
    response_json response
  else
    print ("Error: " +:+ pretty (status_code response) +:+ " - "
           +:+ text response);;
    mret JNull.

(** [check_status(status_id)] *)
Definition check_status (status_id : string) (reply : response) : M json :=
  let url := URL cfg +:+ "/v1/detect/status/" +:+ status_id
             +:+ "?vault_id=" +:+ VAULT_ID cfg in
  let headers : gmap string string :=
    list_to_map [("Authorization", "Bearer " +:+ BEARER_TOKEN cfg)] in
  response ← requests_get url headers reply;
  if status_code response =? 200 then
    response_json response
  else
    print ("Error: " +:+ pretty (status_code response) +:+ " - "
           +:+ text response);;
    mret JNull.

(** The segment built from the decoded reply, lines 179 to 184. *)
Definition reply_segment (pcm_audio : bytes) : result AudioSegment :=
  AudioSegment_init pcm_audio 2 24000 1.

(** The [response.audio.done] branch, lines 174 to 189. *)
Definition save_reply (accumulated_audio : string) : M unit :=
  print "Streaming completed";;
  pcm_audio ← lift (Base64.b64decode accumulated_audio);
  audio ← lift (reply_segment pcm_audio);
  write_file "output.wav" (wav_container codec audio);;
  print "Assistant's reply saved to output.wav".

(** One turn of the receive loop, lines 165 to 190: [Some acc] to go
    on with the accumulator [acc], [None] for [break]. *)
Definition on_message (accumulated_audio : string) (message : option json)
    : M (option string) :=
  parsed_message ← json_loads message;
  ty ← lift (py_get parsed_message "type");
  if py_eq_str ty "response.audio.delta" then
    delta ← lift (py_get parsed_message "delta");
    accumulated_audio ← lift (py_str_iadd accumulated_audio delta);
    mret (Some accumulated_audio)
  else
    ty ← lift (py_get parsed_message "type");
    if py_eq_str ty "response.audio.done" then
      save_reply accumulated_audio;;
      mret None
    else mret (Some accumulated_audio).

(** [async for message in ws], line 164: when no message is left the
    connection is closed, and the loop ends or raises by the way it is
    closed. *)
Fixpoint receive (accumulated_audio : string) (messages : list (option json))
    : M unit :=
  match messages with
  | [] =>
      match ws_closing w with
      | ClosedOK => mret tt
      | ClosedError => raise ConnectionClosed
      end
  | message :: rest =>
      next ← on_message accumulated_audio message;
      match next with
      | Some accumulated_audio => receive accumulated_audio rest
      | None => mret tt
      end
  end.

Definition ws_headers : gmap string string :=
  list_to_map
    [("Authorization", "Bearer " +:+ API_KEY cfg);
     ("OpenAI-Beta", "realtime=v1")].

(** The body of [if output["processedFileType"] == "redacted_audio"],
    lines 142 to 190. *)
Definition forward_redacted (output : json) : M unit :=
  processed_audio_base64 ← lift (py_getitem output "processedFile");
  let processed_audio_path := "processed_output.wav" in
  open_wb processed_audio_path;;
  data ← lift (py_b64decode processed_audio_base64);
  write_file processed_audio_path data;;
  print ("Processed audio saved as " +:+ processed_audio_path);;
  base64_audio ← audio_to_base64 processed_audio_path;
  act (WsConnect (URL_WS cfg) ws_headers);;
  match ws_session w with
  | None => raise ConnectionError
  | Some messages =>
      print "Connected to OpenAI Realtime API.";;
      send_audio base64_audio;;
      receive "" messages
  end.

(** [for output in status_response["output"]], lines 140 to 191: the
    [break] of line 191 leaves the loop after the first match. *)
Fixpoint for_outputs (outputs : list json) : M unit :=
  match outputs with
  | [] => mret tt
  | output :: rest =>
      ty ← lift (py_getitem output "processedFileType");
      if py_eq_str ty "redacted_audio" then forward_redacted output
      else for_outputs rest
  end.

(** One turn of [while True], lines 137 to 198: [true] to poll again,
    [false] for the [break] of lines 192 and 195. *)
Definition poll_once (status_id : string) (reply : response) : M bool :=
  status_response ← check_status status_id reply;
  success ←
    (if truthy status_response then
       st ← lift (py_get status_response "status");
       mret (py_eq_str st "SUCCESS")
     else mret false);
  if success : bool then
    outputs ← lift (rbind (py_getitem status_response "output") py_iter);
    for_outputs outputs;;
    mret false
  else
    st ← lift (py_get status_response "status");
    if py_eq_str st "FAILED" then
      print "Audio processing failed.";;
      mret false
    else
      print "Processing... checking again in 2 seconds.";;
      act (Sleep 2);;
      mret true.

(** [while True], line 136, over the replies to the successive polls;
    the loop has no bound of its own. *)
Fixpoint poll_loop (status_id : string) (replies : list response) : M unit :=
  match replies with
  | [] => blocked
  | reply :: later =>
      again ← poll_once status_id reply;
      if again : bool then poll_loop status_id later else mret tt
  end.

(** [main()] *)
Definition main : M unit :=
  audio_file_path ← record_audio 10 44100;
  print "Sending audio for detection...";;
  detect_response ← detect_audio audio_file_path (detect_reply w);
  has_url ←
    (if truthy detect_response then
       lift (py_contains "status_url" detect_response)
     else mret false);
  if has_url : bool then
    url ← lift (py_getitem detect_response "status_url");
    parts ← lift (py_split url "/");
    status_id ← lift (py_last parts);
    poll_loop status_id (status_replies w)
  else
    print "Error during audio detection.".

End Script.

(** A run starts from the local files present and yields the files left,
    the trace and the outcome. *)
Definition run (cfg : config) (codec : pydub) (w : world)
    (fs : gmap string bytes) : gmap string bytes * list event * outcome unit :=
  main cfg codec w fs.

(** [pre t r]: the run [r], after the actions [t]. *)
Definition pre {A} (t : list event)
    (r : gmap string bytes * list event * outcome A)
    : gmap string bytes * list event * outcome A :=
  match r with (fs, t', o) => (fs, (t ++ t')%list, o) end.

(** ** Vocabulary of the properties *)

(** The snapshot a reply to a poll carries: the JSON object of a 200. *)
Definition snapshot (r : response) : option (gmap string json) :=
  if status_code r =? 200 then
    match json_body r with
    | Some (JObj m) => Some m
    | _ => None
    end
  else None.

Definition status_of (m : gmap string json) : json :=
  default JNull (m !! "status").

(** The reply carries a snapshot whose status is [st]. *)
Definition has_status (st : string) (r : response) : bool :=
  match snapshot r with
  | Some m => py_eq_str (status_of m) st
  | None => false
  end.

(** The reply carries a snapshot whose status is neither ["SUCCESS"] nor
    ["FAILED"]. *)
Definition still_pending (r : response) : bool :=
  match snapshot r with
  | Some m => negb (py_eq_str (status_of m) "SUCCESS")
              && negb (py_eq_str (status_of m) "FAILED")
  | None => false
  end.

(** An output entry with a [processedFileType], other than
    ["redacted_audio"] for [other_artifact], equal to it for
    [redacted_artifact]. *)
Definition file_type (output : json) : option json :=
  match output with
  | JObj m => m !! "processedFileType"
  | _ => None
  end.

Definition other_artifact (output : json) : bool :=
  match file_type output with
  | Some ty => negb (py_eq_str ty "redacted_audio")
  | None => false
  end.

Definition redacted_artifact (output : json) : bool :=
  match file_type output with
  | Some ty => py_eq_str ty "redacted_audio"
  | None => false
  end.

Definition is_poll (e : event) : bool :=
  match e with HttpGet _ _ => true | _ => false end.

Definition is_speech (e : event) : bool :=
  match e with WsConnect _ _ | WsSend _ => true | _ => false end.

Definition is_sleep (e : event) : bool :=
  match e with Sleep _ => true | _ => false end.

(** The request of a poll, lines 110 to 113. *)
Definition poll_request (cfg : config) (status_id : string) : event :=
  HttpGet (URL cfg +:+ "/v1/detect/status/" +:+ status_id
           +:+ "?vault_id=" +:+ VAULT_ID cfg)
          (list_to_map [("Authorization", "Bearer " +:+ BEARER_TOKEN cfg)]).

(** What a poll that finds the job pending adds to the trace. *)
Definition pending_turn (cfg : config) (status_id : string) : list event :=
  [poll_request cfg status_id;
   Print "Processing... checking again in 2 seconds.";
   Sleep 2].

(** A websocket event of the given type, with a [delta] field or none. *)
Definition audio_delta (fragment : string) : option json :=
  Some (JObj (list_to_map
    [("type", JStr "response.audio.delta"); ("delta", JStr fragment)])).

Definition audio_done : option json :=
  Some (JObj (list_to_map [("type", JStr "response.audio.done")])).

(** [emits P m]: every action of [m] satisfies [P], from any files. *)
Definition emits {A} (P : event -> bool) (m : M A) : Prop :=
  forall fs, forallb P (m fs).1.2 = true.

Definition is_print (e : event) : bool :=
  match e with Print _ => true | _ => false end.

Definition not_poll (e : event) : bool := negb (is_poll e).

(** Neither a poll nor a sleep between polls. *)
Definition no_polling (e : event) : bool := negb (is_poll e || is_sleep e).

(** [keeps path m]: [m] leaves the file [path] as it finds it. *)
Definition keeps {A} (path : string) (m : M A) : Prop :=
  forall fs, (m fs).1.1 !! path = fs !! path.

(** The two messages of [send_audio]. *)
Definition conversation_item (base64_audio : string) : json :=
  JObj (list_to_map
    [("type", JStr "conversation.item.create");
     ("item", JObj (list_to_map
        [("type", JStr "message");
         ("role", JStr "user");
         ("content", JArr
            [JObj (list_to_map
               [("type", JStr "input_audio");
                ("audio", JStr base64_audio)])])]))]).

Definition response_create : json :=
  JObj (list_to_map [("type", JStr "response.create")]).

(** What the run adds to the trace between the decoding of the redacted
    audio and the first message received. *)
Definition session_opening (cfg : config) (base64_audio : string) : list event :=
  [Print "Processed audio saved as processed_output.wav";
   WsConnect (URL_WS cfg) (ws_headers cfg);
   Print "Connected to OpenAI Realtime API.";
   WsSend (conversation_item base64_audio);
   WsSend response_create].

(** The character [sep] occurs in [s]. *)
Fixpoint has_char (sep : ascii) (s : string) : bool :=
  match s with
  | EmptyString => false
  | String c rest => Ascii.eqb c sep || has_char sep rest
  end.

(** The segments [init] and the last one, [id], with [sep] between: the
    string that [split] cuts into them. *)
Definition rejoin (sep : ascii) (init : list string) (id : string) : string :=
  foldr (fun segment acc => segment +:+ String sep acc) id init.

(** What the run does before it handles the reply to the submit. *)
Definition submit_trace (cfg : config) (wav : bytes) : list event :=
  [Print "Recording...";
   MicRecord 441000 44100 1;
   Print "Recording complete.";
   Print "Sending audio for detection...";
   HttpPost (URL cfg +:+ "/v1/detect/file") (detect_headers cfg)
     (detect_payload cfg (Base64.b64encode wav))].

(** Neither a poll nor an exchange with the speech service. *)
Definition before_polling (e : event) : bool :=
  negb (is_poll e || is_speech e).

(** Two polls: the job pending, then FAILED. *)
Definition failing_job_world : world :=
  {| mic := Some ["R"; "I"; "F"; "F"]%byte;
     detect_reply :=
       {| status_code := 200; text := "";
          json_body := Some (JObj (list_to_map
            [("status_url",
              JStr "https://detect.example/v1/detect/status/job-1")])) |};
     status_replies :=
       [{| status_code := 200; text := "";
           json_body := Some (JObj (list_to_map
             [("status", JStr "PENDING")])) |};
        {| status_code := 200; text := "";
           json_body := Some (JObj (list_to_map
             [("status", JStr "FAILED")])) |}];
     ws_session := Some []; ws_accepts := 2; ws_closing := ClosedOK |}.

(** ** Sample data *)

Definition demo_config : config :=
  {| API_KEY := "sk-demo"; SKYFLOW_ACCOUNT_ID := "acct-1";
     BEARER_TOKEN := "tok"; VAULT_ID := "v1";
     URL := "https://detect.example"; URL_WS := "wss://speech.example" |}.

(** A codec that reads every file as 44.1 kHz mono 16-bit samples and
    converts by keeping the samples. *)
Definition demo_codec : pydub :=
  {| from_file := fun data =>
       Some {| raw_data := data; sample_width := 2; frame_rate := 44100;
               channels := 1 |};
     ratecv := fun _ a => raw_data a;
     remix := fun _ a => raw_data a;
     lin2lin := fun _ a => raw_data a;
     wav_container := fun a => raw_data a |}.

Definition json_reply (j : json) : response :=
  {| status_code := 200; text := ""; json_body := Some j |}.

Definition status_reply (st : string) (outputs : list json) : response :=
  json_reply (JObj (list_to_map [("status", JStr st); ("output", JArr outputs)])).

Definition artifact (ty file : string) : json :=
  JObj (list_to_map
    [("processedFileType", JStr ty); ("processedFile", JStr file)]).

Definition job_reply : response :=
  json_reply (JObj (list_to_map
    [("status_url", JStr "https://detect.example/v1/detect/status/job-1")])).

Definition server_error : response :=
  {| status_code := 500; text := "Internal Server Error"; json_body := None |}.

(** The submit succeeds and the first poll is answered with a 500. *)
Definition absent_snapshot_world : world :=
  {| mic := Some ["R"; "I"; "F"; "F"]%byte;
     detect_reply := job_reply;
     status_replies := [server_error];
     ws_session := Some []; ws_accepts := 2; ws_closing := ClosedOK |}.

(** The reply of the speech service in three padded fragments. *)
Definition three_fragments : list (option json) :=
  [audio_delta "QQ=="; audio_delta "Qg=="; audio_delta "Qw=="; audio_done].

Definition not_speech (e : event) : bool := negb (is_speech e).

(** The job succeeds at the first poll with a single output that is not
    the redacted audio. *)
Definition no_artifact_world : world :=
  {| mic := Some ["R"; "I"; "F"; "F"]%byte;
     detect_reply := job_reply;
     status_replies := [status_reply "SUCCESS" [artifact "entities" "e30="]];
     ws_session := Some []; ws_accepts := 2; ws_closing := ClosedOK |}.

(** ** Vocabulary of the further properties *)

(** The fragments of a reply, joined in order. *)
Definition joined (fragments : list string) : string :=
  foldr String.append "" fragments.

(** The bytes [bs], then those of [r]. *)
Definition after_bytes (bs : bytes) (r : result bytes) : result bytes :=
  match r with
  | Ok l => Ok (bs ++ l)%list
  | Raise e => Raise e
  end.

(** What the [response.audio.done] branch adds to the trace. *)
Definition reply_saved : list event :=
  [Print "Streaming completed"; Print "Assistant's reply saved to output.wav"].

(** No input device. *)
Definition silent_world : world :=
  {| mic := None; detect_reply := job_reply; status_replies := [];
     ws_session := None; ws_accepts := 2; ws_closing := ClosedOK |}.

(** The submit is answered as [reply]; nothing else is scripted. *)
Definition submit_world (reply : response) : world :=
  {| mic := Some ["R"; "I"; "F"; "F"]%byte; detect_reply := reply;
     status_replies := []; ws_session := None; ws_accepts := 2; ws_closing := ClosedOK |}.

(** The submit succeeds and the polls are answered as [replies]; the
    speech session delivers [session]. *)
Definition polling_world (replies : list response)
    (session : option (list (option json))) : world :=
  {| mic := Some ["R"; "I"; "F"; "F"]%byte; detect_reply := job_reply;
     status_replies := replies; ws_session := session;
     ws_accepts := 2; ws_closing := ClosedOK |}.

(** A whole turn: one pending poll, then SUCCESS with the redacted
    audio as second output; the reply comes in two fragments. *)
Definition whole_turn_world : world :=
  polling_world
    [status_reply "PENDING" [];
     status_reply "SUCCESS"
       [artifact "entities" "e30="; artifact "redacted_audio" "QUJDRA=="]]
    (Some [audio_delta "QUJD"; audio_delta "RA=="; audio_done]).

(** The exchanges with the speech service in a trace, and the four
    shapes they can have: none; the connection alone; the connection,
    then the conversation item; these two, then the request for a
    response. *)
Definition speech_trace (t : list event) : list event :=
  List.filter is_speech t.

Definition session_shape (cfg : config) (t : list event) : Prop :=
  speech_trace t = [] \/
  speech_trace t = [WsConnect (URL_WS cfg) (ws_headers cfg)] \/
  exists base64_audio,
    speech_trace t =
      [WsConnect (URL_WS cfg) (ws_headers cfg);
       WsSend (conversation_item base64_audio)] \/
    speech_trace t =
      [WsConnect (URL_WS cfg) (ws_headers cfg);
       WsSend (conversation_item base64_audio);
       WsSend response_create].

(** The job succeeds at the first poll; its first output has no
    [processedFileType], its second is the redacted audio. *)
Definition untyped_entry_world : world :=
  polling_world
    [status_reply "SUCCESS"
       [JObj (list_to_map [("processedFile", JStr "e30=")]);
        artifact "redacted_audio" "QUJDRA=="]]
    (Some [audio_done]).

(** Two pending polls, then SUCCESS with the redacted audio as second
    output; the handshake with the speech service fails. *)
Definition extraction_world : world :=
  polling_world
    [status_reply "PENDING" []; status_reply "PENDING" [];
     status_reply "SUCCESS"
       [artifact "entities" "e30="; artifact "redacted_audio" "QUJDRA=="]]
    None.

(** * Properties *)

(** ** Running the monad *)

Lemma pre_nil {A} (r : gmap string bytes * list event * outcome A) :
  pre [] r = r.
Proof. now destruct r as [[? ?] ?]. Qed.

Lemma pre_pre {A} t1 t2 (r : gmap string bytes * list event * outcome A) :
  pre t1 (pre t2 r) = pre (t1 ++ t2)%list r.
Proof. destruct r as [[? ?] ?]. cbn. now rewrite app_assoc. Qed.

Lemma pre_res {A} t fs t' (o : outcome A) :
  pre t (fs, t', o) = (fs, (t ++ t')%list, o).
Proof. reflexivity. Qed.

Lemma run_bind {A B} (m : M A) (k : A -> M B) fs :
  (m ≫= k) fs =
  match m fs with
  | (fs1, t1, Ret a) => pre t1 (k a fs1)
  | (fs1, t1, Exc e) => (fs1, t1, Exc e)
  | (fs1, t1, Blocked) => (fs1, t1, Blocked)
  end.
Proof. reflexivity. Qed.

Lemma run_ret_bind {A B} (a : A) (k : A -> M B) fs : (mret a ≫= k) fs = k a fs.
Proof. rewrite run_bind. cbn. apply pre_nil. Qed.

Lemma run_raise_bind {A B} e (k : A -> M B) fs :
  (raise e ≫= k) fs = (fs, [], Exc e).
Proof. reflexivity. Qed.

Lemma run_blocked_bind {A B} (k : A -> M B) fs :
  (blocked ≫= k) fs = (fs, [], Blocked).
Proof. reflexivity. Qed.

Lemma run_act_bind {B} ev (k : unit -> M B) fs :
  (act ev ≫= k) fs = pre [ev] (k tt fs).
Proof. reflexivity. Qed.

Lemma run_print_bind {B} line (k : unit -> M B) fs :
  (print line ≫= k) fs = pre [Print line] (k tt fs).
Proof. reflexivity. Qed.

Lemma run_write_bind {B} path data (k : unit -> M B) fs :
  (write_file path data ≫= k) fs = k tt (<[path := data]> fs).
Proof. rewrite run_bind. cbn. apply pre_nil. Qed.

Lemma run_open_bind {B} path (k : unit -> M B) fs :
  (open_wb path ≫= k) fs = k tt (<[path := []]> fs).
Proof. rewrite run_bind. cbn. apply pre_nil. Qed.

Lemma run_read_bind {B} path (k : bytes -> M B) fs :
  (read_file path ≫= k) fs =
  match fs !! path with
  | Some data => k data fs
  | None => (fs, [], Exc FileNotFoundError)
  end.
Proof.
  rewrite run_bind. unfold read_file.
  destruct (fs !! path); [apply pre_nil | reflexivity].
Qed.

Lemma run_lift_bind {A B} (r : result A) (k : A -> M B) fs :
  (lift r ≫= k) fs =
  match r with
  | Ok a => k a fs
  | Raise e => (fs, [], Exc e)
  end.
Proof. destruct r; [apply run_ret_bind | reflexivity]. Qed.

Lemma run_assoc {A B C} (m : M A) (f : A -> M B) (g : B -> M C) fs :
  ((m ≫= f) ≫= g) fs = (m ≫= (fun x => f x ≫= g)) fs.
Proof.
  rewrite !run_bind.
  destruct (m fs) as [[fs1 t1] [a| |]]; try reflexivity.
  rewrite run_bind.
  destruct (f a fs1) as [[fs2 t2] [b| |]]; try reflexivity.
  cbn. now rewrite pre_pre.
Qed.

Lemma run_ret {A} (a : A) fs : (mret a : M A) fs = (fs, [], Ret a).
Proof. reflexivity. Qed.

Lemma run_print line fs : print line fs = (fs, [Print line], Ret tt).
Proof. reflexivity. Qed.

Create Rewrite HintDb run.
#[global] Hint Rewrite @run_assoc @run_ret_bind @run_raise_bind
  @run_blocked_bind @run_act_bind @run_print_bind @run_write_bind
  @run_open_bind @run_read_bind @run_lift_bind @run_ret @run_print
  @pre_pre @pre_res @pre_nil : run.

Ltac mrun :=
  repeat (progress (autorewrite with run;
    cbn beta iota zeta delta [py_get py_getitem py_iter py_split py_b64decode
      py_str_iadd py_contains rbind json_loads response_json])).



(** ** Base64 *)

Module Base64Facts.
Import Base64.

(** Arithmetic on sextets: quotients and remainders by constants. *)
Ltac sextets := intros; zify; Z.to_euclidean_division_equations; lia.

Lemma sextet_cases (P : N -> bool) :
  forallb P (N.of_nat <$> seq 0 64) = true ->
  forall n, (n < 64)%N -> P n = true.
Proof.
  intros Hall n Hn.
  rewrite forallb_forall in Hall. apply Hall.
  apply in_map_iff. exists (N.to_nat n). split.
  - apply N2Nat.id.
  - apply in_seq. lia.
Qed.

Lemma enc_char_not_pad n : (n < 64)%N -> Ascii.eqb (enc_char n) pad = false.
Proof.
  intros Hn.
  apply (sextet_cases (fun k => negb (Ascii.eqb (enc_char k) pad))) in Hn.
  - now destruct (Ascii.eqb (enc_char n) pad).
  - vm_compute. reflexivity.
Qed.

Lemma dec_enc_char n : (n < 64)%N -> dec_char (enc_char n) = Some n.
Proof.
  intros Hn.
  apply (sextet_cases
           (fun k => match dec_char (enc_char k) with
                     | Some j => (j =? k)%N
                     | None => false
                     end)) in Hn.
  - destruct (dec_char (enc_char n)) as [j|]; [|discriminate].
    apply N.eqb_eq in Hn. now subst.
  - vm_compute. reflexivity.
Qed.

Lemma enc_char_ascii n : (n < 64)%N -> is_ascii_char (enc_char n) = true.
Proof.
  intros Hn. apply (sextet_cases (fun k => is_ascii_char (enc_char k))); [|done].
  vm_compute. reflexivity.
Qed.

(** One data character moves the decoder one place in the quad. *)
Lemma a2b_base64_data n rest q l p :
  (n < 64)%N ->
  a2b_base64 (String (enc_char n) rest) q l p =
  match q with
  | 0%N => a2b_base64 rest 1 n 0
  | 1%N => emit (byte_of_N (l * 4 + n / 16)) (a2b_base64 rest 2 (n mod 16) 0)
  | 2%N => emit (byte_of_N (l * 16 + n / 4)) (a2b_base64 rest 3 (n mod 4) 0)
  | _ => emit (byte_of_N (l * 64 + n)) (a2b_base64 rest 0 0 0)
  end%N.
Proof.
  intros Hn. cbn [a2b_base64].
  rewrite enc_char_not_pad, dec_enc_char by done. reflexivity.
Qed.

Lemma byte_of_to_N b : byte_of_N (Byte.to_N b) = b.
Proof.
  unfold byte_of_N. pose proof (Byte.to_N_bounded b).
  rewrite N.mod_small by lia. now rewrite Byte.of_to_N.
Qed.

Lemma list_ind3 {A} (P : list A -> Prop) :
  P [] -> (forall a, P [a]) -> (forall a b, P [a; b]) ->
  (forall a b c l, P l -> P (a :: b :: c :: l)) ->
  forall l, P l.
Proof.
  intros H0 H1 H2 H3 l.
  cut (P l /\ (forall a, P (a :: l)) /\ (forall a b, P (a :: b :: l))).
  { intros [H _]. exact H. }
  induction l as [|x l (IH0 & IH1 & IH2)]; repeat split; auto.
Qed.

Lemma byte_of_N_eq n b : n = Byte.to_N b -> byte_of_N n = b.
Proof. intros ->. apply byte_of_to_N. Qed.

(** The padding that closes a quad ends the decoding. *)
Lemma a2b_base64_pad2 l :
  a2b_base64 (String pad (String pad "")) 2 l 0 = Ok [].
Proof. reflexivity. Qed.

Lemma a2b_base64_pad1 l : a2b_base64 (String pad "") 3 l 0 = Ok [].
Proof. reflexivity. Qed.

(** Decoding undoes encoding, from any decoder state at a quad
    boundary. *)
Lemma a2b_b64encode bs : forall l p, a2b_base64 (b64encode bs) 0 l p = Ok bs.
Proof.
  induction bs as [|a|a b|a b c rest IH] using list_ind3; intros l p.
  - reflexivity.
  - cbn [b64encode].
    pose proof (Byte.to_N_bounded a) as Ha.
    rewrite !a2b_base64_data by sextets.
    rewrite a2b_base64_pad2. cbn [emit].
    do 2 f_equal. apply byte_of_N_eq. sextets.
  - cbn [b64encode].
    pose proof (Byte.to_N_bounded a) as Ha.
    pose proof (Byte.to_N_bounded b) as Hb.
    rewrite !a2b_base64_data by sextets.
    rewrite a2b_base64_pad1. cbn [emit].
    f_equal. f_equal; [|f_equal]; apply byte_of_N_eq; sextets.
  - cbn [b64encode].
    pose proof (Byte.to_N_bounded a) as Ha.
    pose proof (Byte.to_N_bounded b) as Hb.
    pose proof (Byte.to_N_bounded c) as Hc.
    rewrite !a2b_base64_data by sextets.
    rewrite IH. cbn [emit].
    f_equal. f_equal; [|f_equal; [|f_equal]]; apply byte_of_N_eq; sextets.
Qed.

Lemma b64encode_ascii bs : is_ascii (b64encode bs) = true.
Proof.
  induction bs as [|a|a b|a b c rest IH] using list_ind3.
  - reflexivity.
  - cbn [b64encode is_ascii].
    pose proof (Byte.to_N_bounded a) as Ha.
    rewrite !enc_char_ascii by sextets. reflexivity.
  - cbn [b64encode is_ascii].
    pose proof (Byte.to_N_bounded a) as Ha.
    pose proof (Byte.to_N_bounded b) as Hb.
    rewrite !enc_char_ascii by sextets. reflexivity.
  - cbn [b64encode is_ascii].
    pose proof (Byte.to_N_bounded a) as Ha.
    pose proof (Byte.to_N_bounded b) as Hb.
    pose proof (Byte.to_N_bounded c) as Hc.
    rewrite !enc_char_ascii by sextets. now rewrite IH.
Qed.

(** [b64decode(b64encode(bs)) == bs] *)
Lemma b64decode_b64encode bs : b64decode (b64encode bs) = Ok bs.
Proof.
  unfold b64decode. rewrite b64encode_ascii. apply a2b_b64encode.
Qed.

(** Test vectors, as CPython decodes them. *)
Example b64encode_A : b64encode ["A"%byte] = "QQ==".
Proof. reflexivity. Qed.

Example b64encode_ABCA : b64encode ["A"; "B"; "C"; "A"]%byte = "QUJDQQ==".
Proof. reflexivity. Qed.

Example b64decode_stops_at_padding :
  b64decode "QUI=QUJD" = Ok ["A"; "B"]%byte.
Proof. reflexivity. Qed.

Example b64decode_short : b64decode "QQ=" = Raise BinasciiError.
Proof. reflexivity. Qed.

Example b64decode_skips : b64decode "QQ=x=Qg==" = Ok ["A"; x0c]%byte.
Proof. reflexivity. Qed.

End Base64Facts.

(** Lookups in dictionary literals and comparisons of string literals
    are evaluated in place. *)
Ltac literals :=
  repeat match goal with
  | |- context [@lookup ?K ?A ?T ?L ?k (list_to_map ?l)] =>
      let v := eval vm_compute in (@lookup K A T L k (list_to_map l)) in
      change (@lookup K A T L k (list_to_map l)) with v
  | |- context [py_eq_str (JStr ?a) ?b] =>
      let v := eval vm_compute in (py_eq_str (JStr a) b) in
      change (py_eq_str (JStr a) b) with v
  | |- context [py_eq_str JNull ?b] =>
      change (py_eq_str JNull b) with false
  end;
  cbn [default from_option id].

Ltac steps := repeat (progress (mrun; literals)).

(** ** The two REST calls *)

Lemma eqb_200_false (r : response) :
  status_code r <> 200 -> (status_code r =? 200) = false.
Proof. apply Z.eqb_neq. Qed.

Lemma run_check_status cfg status_id r fs :
  check_status cfg status_id r fs =
  if status_code r =? 200 then
    pre [poll_request cfg status_id] (response_json r fs)
  else
    (fs, [poll_request cfg status_id;
          Print ("Error: " +:+ pretty (status_code r) +:+ " - " +:+ text r)],
     Ret JNull).
Proof.
  unfold check_status, requests_get. mrun.
  destruct (status_code r =? 200); mrun; reflexivity.
Qed.

Lemma run_detect_audio cfg path r fs data :
  fs !! path = Some data ->
  detect_audio cfg path r fs =
  let request :=
    HttpPost (URL cfg +:+ "/v1/detect/file") (detect_headers cfg)
      (detect_payload cfg (Base64.b64encode data)) in
  if status_code r =? 200 then pre [request] (response_json r fs)
  else
    (fs, [request;
          Print ("Error: " +:+ pretty (status_code r) +:+ " - " +:+ text r)],
     Ret JNull).
Proof.
  intros Hfile. unfold detect_audio, convert_wav_to_base64, requests_post.
  mrun. rewrite Hfile. mrun.
  destruct (status_code r =? 200); mrun; reflexivity.
Qed.

(** C7, as the code has it: [detect_audio] and [check_status] return the
    parsed body exactly when the status code is 200 and the body is
    JSON; on a 200 whose body is not JSON, [response.json()] raises and
    the error goes to the caller; with any other code, the other 2xx
    codes included, they log the code and the body, return [None] and
    raise nothing. *)
Theorem C7_body_iff_status_200 cfg path status_id r fs data :
  fs !! path = Some data ->
  let request :=
    HttpPost (URL cfg +:+ "/v1/detect/file") (detect_headers cfg)
      (detect_payload cfg (Base64.b64encode data)) in
  let line :=
    Print ("Error: " +:+ pretty (status_code r) +:+ " - " +:+ text r) in
  (forall j,
     status_code r = 200 /\ json_body r = Some j <->
     detect_audio cfg path r fs = (fs, [request], Ret j)) /\
  (forall j,
     status_code r = 200 /\ json_body r = Some j <->
     check_status cfg status_id r fs = (fs, [poll_request cfg status_id], Ret j)) /\
  (status_code r = 200 -> json_body r = None ->
     detect_audio cfg path r fs = (fs, [request], Exc JSONDecodeError) /\
     check_status cfg status_id r fs =
       (fs, [poll_request cfg status_id], Exc JSONDecodeError)) /\
  (status_code r <> 200 ->
     detect_audio cfg path r fs = (fs, [request; line], Ret JNull) /\
     check_status cfg status_id r fs =
       (fs, [poll_request cfg status_id; line], Ret JNull)).
Proof.
  intros Hfile request line.
  rewrite (run_detect_audio _ _ _ _ _ Hfile), run_check_status.
  fold request. fold line. unfold response_json.
  destruct (Z.eqb_spec (status_code r) 200) as [Hcode|Hcode];
    destruct (json_body r) as [body|]; cbn [pre app];
    (split; [|split; [|split]]);
    try (intros j; split; [intros [_ [= ->]]; reflexivity | intros [= <-]; done]);
    try (intros j; split; [intros [? ?]; done | intros [=]]);
    try done.
Qed.

Lemma C7_body_iff_status_200_witness :
  let fs : gmap string bytes := {["input.wav" := ["A"%byte]]} in
  let request :=
    HttpPost "https://detect.example/v1/detect/file"
      (detect_headers demo_config) (detect_payload demo_config "QQ==") in
  (check_status demo_config "job-1" (json_reply (JObj ∅)) fs =
     (fs, [poll_request demo_config "job-1"], Ret (JObj ∅)) /\
   detect_audio demo_config "input.wav" (json_reply (JObj ∅)) fs =
     (fs, [request], Ret (JObj ∅))) /\
  (detect_audio demo_config "input.wav"
     {| status_code := 200; text := "<html>"; json_body := None |} fs =
     (fs, [request], Exc JSONDecodeError) /\
   check_status demo_config "job-1"
     {| status_code := 200; text := "<html>"; json_body := None |} fs =
     (fs, [poll_request demo_config "job-1"], Exc JSONDecodeError)) /\
  (detect_audio demo_config "input.wav"
     {| status_code := 204; text := "No Content"; json_body := Some (JObj ∅) |}
     fs =
     (fs, [request; Print "Error: 204 - No Content"], Ret JNull) /\
   check_status demo_config "job-1"
     {| status_code := 204; text := "No Content"; json_body := Some (JObj ∅) |}
     fs =
     (fs, [poll_request demo_config "job-1"; Print "Error: 204 - No Content"],
      Ret JNull)).
Proof.
  intros fs request.
  pose proof (fun r => C7_body_iff_status_200 demo_config "input.wav" "job-1" r
                         fs ["A"%byte] (lookup_singleton_eq _ _)) as H.
  split; [|split].
  - destruct (H (json_reply (JObj ∅))) as (Hdetect & Hcheck & _).
    split; [apply Hcheck | apply Hdetect]; done.
  - destruct (H {| status_code := 200; text := "<html>"; json_body := None |})
      as (_ & _ & Hraise & _).
    now apply Hraise.
  - destruct (H {| status_code := 204; text := "No Content";
                   json_body := Some (JObj ∅) |}) as (_ & _ & _ & Hother).
    apply Hother. cbn. lia.
Defined.

(** C7 as stated fails: a 201 with a JSON body is in the 2xx range, and
    [check_status] returns [None], not the body. *)
Lemma C7_counterexample :
  ~ (forall r j, 200 <= status_code r < 300 -> json_body r = Some j ->
       (check_status demo_config "job-1" r ∅).2 = Ret j).
Proof.
  intros H.
  specialize (H {| status_code := 201; text := "Created";
                   json_body := Some (JBool true) |} (JBool true)).
  cbn in H. discriminate H; [lia | reflexivity].
Qed.

(** ** The receive loop *)

(** C8: an event whose type is neither [response.audio.delta] nor
    [response.audio.done] changes neither the accumulator nor the files,
    adds nothing to the trace, and the loop goes on with the next
    message. *)
Theorem C8_other_event_ignored codec w acc (m : gmap string json) rest fs :
  py_eq_str (default JNull (m !! "type")) "response.audio.delta" = false ->
  py_eq_str (default JNull (m !! "type")) "response.audio.done" = false ->
  on_message codec acc (Some (JObj m)) fs = (fs, [], Ret (Some acc)) /\
  receive codec w acc (Some (JObj m) :: rest) fs = receive codec w acc rest fs.
Proof.
  intros Hdelta Hdone.
  assert (on_message codec acc (Some (JObj m)) fs = (fs, [], Ret (Some acc)))
    as Hstep.
  { unfold on_message. mrun. rewrite Hdelta. mrun. now rewrite Hdone. }
  split; [exact Hstep|].
  cbn [receive]. rewrite run_bind, Hstep. apply pre_nil.
Qed.

Lemma C8_other_event_ignored_witness :
  let m : gmap string json :=
    list_to_map [("type", JStr "response.text.delta"); ("delta", JStr "hi")] in
  on_message demo_codec "QQ==" (Some (JObj m)) ∅ = (∅, [], Ret (Some "QQ==")) /\
  receive demo_codec silent_world "QQ==" [Some (JObj m); audio_done] ∅ =
  receive demo_codec silent_world "QQ==" [audio_done] ∅.
Proof.
  intros m.
  apply (C8_other_event_ignored demo_codec silent_world "QQ==" m [audio_done] ∅);
    reflexivity.
Defined.

(** A [response.audio.delta] event appends its fragment. *)
Lemma on_message_delta codec acc fragment fs :
  on_message codec acc (audio_delta fragment) fs =
  (fs, [], Ret (Some (acc +:+ fragment))).
Proof. reflexivity. Qed.

Lemma receive_delta codec w acc fragment rest fs :
  receive codec w acc (audio_delta fragment :: rest) fs =
  receive codec w (acc +:+ fragment) rest fs.
Proof.
  cbn [receive]. rewrite run_bind, on_message_delta. apply pre_nil.
Qed.

(** A [response.audio.done] event decodes the accumulator and stops. *)
Lemma receive_done codec w acc rest fs :
  receive codec w acc (audio_done :: rest) fs = save_reply codec acc fs.
Proof.
  cbn [receive]. rewrite run_bind.
  unfold audio_done, on_message. steps.
  rewrite !run_bind.
  destruct (save_reply codec acc fs) as [[fs1 t1] [[]| |]]; cbn;
    rewrite ?app_nil_r; reflexivity.
Qed.

(** C3 on the code: after the three fragments the accumulator is their
    concatenation; the single decode of it stops at the first padding and
    yields one byte, where the fragments decoded one by one yield three;
    one byte is no whole 16-bit frame, and the run ends in the
    constructor's [ValueError] with [output.wav] not written. *)
Theorem C3_single_decode_stops_at_first_padding codec w fs :
  receive codec w "" three_fragments fs = save_reply codec "QQ==Qg==Qw==" fs /\
  Base64.b64decode "QQ==Qg==Qw==" = Ok ["A"%byte] /\
  (Base64.b64decode "QQ==", Base64.b64decode "Qg==", Base64.b64decode "Qw==")
    = (Ok ["A"%byte], Ok ["B"%byte], Ok ["C"%byte]) /\
  receive codec w "" three_fragments fs =
    (fs, [Print "Streaming completed"], Exc ValueError).
Proof.
  assert (receive codec w "" three_fragments fs
          = save_reply codec "QQ==Qg==Qw==" fs) as Hacc.
  { unfold three_fragments. rewrite !receive_delta. apply receive_done. }
  split; [exact Hacc|]. do 2 (split; [reflexivity|]).
  rewrite Hacc. unfold save_reply. mrun.
  change (Base64.b64decode "QQ==Qg==Qw==") with (Ok ["A"%byte] : result bytes).
  mrun. reflexivity.
Qed.

(** ** What a computation can emit *)


Section Emits.
Context (P : event -> bool).

Lemma emits_ret {A} (a : A) : emits P (mret a).
Proof. intros fs. reflexivity. Qed.

Lemma emits_raise {A} e : emits P (raise e : M A).
Proof. intros fs. reflexivity. Qed.

Lemma emits_blocked {A} : emits P (blocked : M A).
Proof. intros fs. reflexivity. Qed.

Lemma emits_lift {A} (r : result A) : emits P (lift r).
Proof. destruct r; [apply emits_ret | apply emits_raise]. Qed.

Lemma emits_act ev : P ev = true -> emits P (act ev).
Proof. intros H fs. cbn. now rewrite H. Qed.

Lemma emits_print line : P (Print line) = true -> emits P (print line).
Proof. apply emits_act. Qed.

Lemma emits_read path : emits P (read_file path).
Proof. intros fs. unfold read_file. now destruct (fs !! path). Qed.

Lemma emits_write path data : emits P (write_file path data).
Proof. intros fs. reflexivity. Qed.

Lemma emits_open path : emits P (open_wb path).
Proof. intros fs. reflexivity. Qed.

Lemma emits_bind {A B} (m : M A) (k : A -> M B) :
  emits P m -> (forall a, emits P (k a)) -> emits P (m ≫= k).
Proof.
  intros Hm Hk fs. rewrite run_bind. specialize (Hm fs).
  destruct (m fs) as [[fs1 t1] [a| |]]; cbn in *; try exact Hm.
  specialize (Hk a fs1). destruct (k a fs1) as [[fs2 t2] o]. cbn in *.
  rewrite forallb_app, Hm, Hk. reflexivity.
Qed.
End Emits.

Ltac emits_step :=
  first
    [ apply emits_bind; [|intros ?]
    | apply emits_ret | apply emits_raise | apply emits_blocked
    | apply emits_lift | apply emits_read | apply emits_write
    | apply emits_open
    | apply emits_act; reflexivity
    | apply emits_print; reflexivity
    | match goal with
      | |- emits _ (if ?b then _ else _) => destruct b
      | |- emits _ (match ?x with _ => _ end) => destruct x
      end ].

Ltac emits_all := repeat emits_step.


Lemma emits_weaken {A} (P Q : event -> bool) (m : M A) :
  (forall e, P e = true -> Q e = true) -> emits P m -> emits Q m.
Proof.
  intros HPQ Hm fs. specialize (Hm fs).
  rewrite forallb_forall in *. auto.
Qed.

Lemma emits_on_message codec acc message : emits is_print (on_message codec acc message).
Proof. unfold on_message, save_reply, json_loads. emits_all. Qed.

Lemma emits_receive codec w messages :
  forall acc, emits is_print (receive codec w acc messages).
Proof.
  induction messages as [|message rest IH]; intros acc; cbn [receive].
  - destruct (ws_closing w); [apply emits_ret | apply emits_raise].
  - apply emits_bind; [apply emits_on_message|].
    intros [acc'|]; [apply IH | apply emits_ret].
Qed.


Lemma emits_forward_redacted cfg codec w output :
  emits no_polling (forward_redacted cfg codec w output).
Proof.
  unfold forward_redacted, audio_to_base64, send_audio, ws_send.
  emits_all.
  eapply emits_weaken; [|apply emits_receive]. now intros [].
Qed.

Lemma emits_for_outputs cfg codec w outputs :
  emits no_polling (for_outputs cfg codec w outputs).
Proof.
  induction outputs as [|output rest IH]; cbn [for_outputs].
  - apply emits_ret.
  - apply emits_bind; [apply emits_lift|]. intros ty.
    destruct (py_eq_str ty "redacted_audio");
      [apply emits_forward_redacted | apply IH].
Qed.

(** ** One poll *)

Lemma py_eq_str_true v s : py_eq_str v s = true -> v = JStr s.
Proof.
  destruct v; try done. cbn. intros H%String.eqb_eq. now subst.
Qed.

Lemma truthy_status m s : status_of m = JStr s -> truthy (JObj m) = true.
Proof.
  unfold status_of. intros H. cbn. apply negb_true_iff, bool_decide_eq_false.
  intros ->. rewrite lookup_empty in H. done.
Qed.

(** A computation of [unit] followed by a constant keeps its run. *)
Lemma run_then_ret {B} (m : M unit) (b : B) fs :
  (m ≫= fun _ => mret b) fs =
  match m fs with
  | (fs', t, Ret _) => (fs', t, Ret b)
  | (fs', t, Exc e) => (fs', t, Exc e)
  | (fs', t, Blocked) => (fs', t, Blocked)
  end.
Proof.
  rewrite run_bind. destruct (m fs) as [[fs' t] [[]| |]]; cbn;
    rewrite ?app_nil_r; reflexivity.
Qed.

Lemma no_polling_not_poll t :
  forallb no_polling t = true -> forallb not_poll t = true.
Proof.
  rewrite !forallb_forall. intros H e He. specialize (H e He).
  unfold no_polling, not_poll in *. now destruct (is_poll e).
Qed.

Section Polling.
Context (cfg : config) (codec : pydub) (w : world) (status_id : string).

Lemma snapshot_reply r m :
  snapshot r = Some m -> status_code r = 200 /\ json_body r = Some (JObj m).
Proof.
  unfold snapshot. destruct (Z.eqb_spec (status_code r) 200); [|done].
  destruct (json_body r) as [[]|]; try done. intros [= ->]. done.
Qed.

Lemma run_check_status_snapshot r m fs :
  snapshot r = Some m ->
  check_status cfg status_id r fs =
  (fs, [poll_request cfg status_id], Ret (JObj m)).
Proof.
  intros [Hcode Hbody]%snapshot_reply.
  rewrite run_check_status, Hcode. cbn. unfold response_json.
  now rewrite Hbody.
Qed.

(** A pending snapshot: one request, the log line, the sleep, and the
    loop goes on. *)
Lemma poll_once_pending r fs :
  still_pending r = true ->
  poll_once cfg codec w status_id r fs =
  (fs, pending_turn cfg status_id, Ret true).
Proof.
  unfold still_pending. destruct (snapshot r) as [m|] eqn:Hsnap; [|done].
  intros [Hs Hf]%andb_prop.
  apply negb_true_iff in Hs, Hf.
  unfold poll_once. rewrite run_bind, (run_check_status_snapshot _ _ _ Hsnap).
  fold (status_of m) in *.
  destruct (truthy (JObj m));
    repeat (progress (steps; fold (status_of m); rewrite ?Hs, ?Hf));
    reflexivity.
Qed.

(** A FAILED snapshot: one request, the log line, and the loop ends. *)
Lemma poll_once_failed r fs :
  has_status "FAILED" r = true ->
  poll_once cfg codec w status_id r fs =
  (fs, [poll_request cfg status_id; Print "Audio processing failed."],
   Ret false).
Proof.
  unfold has_status. destruct (snapshot r) as [m|] eqn:Hsnap; [|done].
  intros Hf%py_eq_str_true.
  unfold poll_once. rewrite run_bind, (run_check_status_snapshot _ _ _ Hsnap).
  rewrite (truthy_status _ _ Hf).
  repeat (progress (steps; fold (status_of m); rewrite ?Hf)).
  reflexivity.
Qed.

(** The outputs the loop of line 140 runs over. *)
Lemma poll_once_success r m fs :
  snapshot r = Some m ->
  status_of m = JStr "SUCCESS" ->
  poll_once cfg codec w status_id r fs =
  pre [poll_request cfg status_id]
    ((lift (rbind (py_getitem (JObj m) "output") py_iter)
      ≫= fun outputs => for_outputs cfg codec w outputs ≫= fun _ => mret false)
       fs).
Proof.
  intros Hsnap Hs.
  unfold poll_once. rewrite run_bind, (run_check_status_snapshot _ _ _ Hsnap).
  rewrite (truthy_status _ _ Hs).
  rewrite run_assoc, run_lift_bind. cbn [py_get]. fold (status_of m).
  rewrite Hs, run_ret_bind. literals. reflexivity.
Qed.

(** Whatever the reply, a turn of the loop issues exactly one request,
    first; and it asks for another turn only on a pending snapshot. *)
Lemma poll_once_one_request r fs :
  exists fs' t o,
    poll_once cfg codec w status_id r fs
      = (fs', poll_request cfg status_id :: t, o) /\
    forallb not_poll t = true /\
    (still_pending r = false -> o <> Ret true).
Proof.
  destruct (still_pending r) eqn:Hpend.
  { rewrite (poll_once_pending _ _ Hpend). unfold pending_turn.
    eexists _, _, _. repeat split; try reflexivity. done. }
  destruct (snapshot r) as [m|] eqn:Hsnap.
  - unfold still_pending in Hpend. rewrite Hsnap in Hpend.
    apply andb_false_iff in Hpend as [Hs|Hf].
    + apply negb_false_iff, py_eq_str_true in Hs.
      rewrite (poll_once_success _ _ _ Hsnap Hs).
      rewrite run_lift_bind.
      destruct (rbind _ _) as [outputs|e].
      * rewrite run_then_ret.
        pose proof (emits_for_outputs cfg codec w outputs fs) as Hquiet.
        destruct (for_outputs cfg codec w outputs fs) as [[fs' t] [[]| |]];
          cbn in *; apply no_polling_not_poll in Hquiet;
          eexists _, _, _; repeat split; try eassumption; done.
      * cbn. eexists _, _, _. repeat split; done.
    + apply negb_false_iff in Hf.
      assert (has_status "FAILED" r = true) as Hfailed.
      { unfold has_status. now rewrite Hsnap. }
      rewrite (poll_once_failed _ _ Hfailed).
      eexists _, _, _. repeat split; done.
  - unfold poll_once. rewrite run_bind, run_check_status.
    unfold snapshot in Hsnap.
    destruct (status_code r =? 200).
    + unfold response_json. destruct (json_body r) as [v|].
      * cbn [pre].
        destruct v; try done; steps;
          destruct (truthy _) eqn:Htruthy; steps;
          eexists _, _, _; repeat split; done.
      * cbn. eexists _, _, _. repeat split; done.
    + steps. eexists _, _, _. repeat split; done.
Qed.
End Polling.

(** ** The scan of the outputs *)

Section Outputs.
Context (cfg : config) (codec : pydub) (w : world).

Lemma for_outputs_other output rest fs :
  other_artifact output = true ->
  for_outputs cfg codec w (output :: rest) fs = for_outputs cfg codec w rest fs.
Proof.
  unfold other_artifact, file_type.
  destruct output as [| | | | |m]; try done.
  destruct (m !! "processedFileType") as [ty|] eqn:Hty; [|done].
  intros Hne%negb_true_iff.
  cbn [for_outputs]. mrun. rewrite Hty. mrun. now rewrite Hne.
Qed.

Lemma for_outputs_skip skipped rest fs :
  forallb other_artifact skipped = true ->
  for_outputs cfg codec w (skipped ++ rest) fs = for_outputs cfg codec w rest fs.
Proof.
  induction skipped as [|output skipped IH]; [done|].
  cbn [forallb]. intros [Ho Hs]%andb_prop.
  rewrite <- app_comm_cons, for_outputs_other by done. auto.
Qed.

Lemma for_outputs_redacted output rest fs :
  redacted_artifact output = true ->
  for_outputs cfg codec w (output :: rest) fs =
  forward_redacted cfg codec w output fs.
Proof.
  unfold redacted_artifact, file_type.
  destruct output as [| | | | |m]; try done.
  destruct (m !! "processedFileType") as [ty|] eqn:Hty; [|done].
  intros Heq.
  cbn [for_outputs]. mrun. rewrite Hty. mrun. now rewrite Heq.
Qed.

Lemma for_outputs_none outputs fs :
  forallb other_artifact outputs = true ->
  for_outputs cfg codec w outputs fs = (fs, [], Ret tt).
Proof.
  intros H. rewrite <- (app_nil_r outputs), for_outputs_skip by done.
  reflexivity.
Qed.
End Outputs.

(** ** The polling loop *)

Section Loop.
Context (cfg : config) (codec : pydub) (w : world) (status_id : string).

Lemma poll_loop_pending pend rest fs :
  forallb still_pending pend = true ->
  poll_loop cfg codec w status_id (pend ++ rest) fs =
  pre (concat (replicate (length pend) (pending_turn cfg status_id)))
    (poll_loop cfg codec w status_id rest fs).
Proof.
  induction pend as [|r pend IH]; cbn [forallb].
  - intros _. cbn. now rewrite pre_nil.
  - intros [Hr Hpend]%andb_prop.
    rewrite <- app_comm_cons. cbn [poll_loop length replicate concat].
    rewrite run_bind, poll_once_pending by done.
    rewrite IH by done. now rewrite pre_pre.
Qed.

Lemma poll_loop_success r later m outputs fs :
  snapshot r = Some m ->
  m !! "status" = Some (JStr "SUCCESS") ->
  m !! "output" = Some (JArr outputs) ->
  poll_loop cfg codec w status_id (r :: later) fs =
  pre [poll_request cfg status_id] (for_outputs cfg codec w outputs fs).
Proof.
  intros Hsnap Hs Hout.
  assert (status_of m = JStr "SUCCESS") as Hst.
  { unfold status_of. now rewrite Hs. }
  cbn [poll_loop]. rewrite run_bind, (poll_once_success _ _ _ _ _ _ _ Hsnap Hst).
  cbn [py_getitem]. rewrite Hout. cbn [rbind py_iter].
  rewrite run_lift_bind, run_then_ret.
  destruct (for_outputs cfg codec w outputs fs) as [[fs' t] [[]| |]]; cbn;
    rewrite ?app_nil_r; reflexivity.
Qed.

Lemma poll_loop_failed r later fs :
  has_status "FAILED" r = true ->
  poll_loop cfg codec w status_id (r :: later) fs =
  (fs, [poll_request cfg status_id; Print "Audio processing failed."], Ret tt).
Proof.
  intros Hf. cbn [poll_loop]. rewrite run_bind, poll_once_failed by done.
  reflexivity.
Qed.

Lemma polls_of_pending n :
  List.filter is_poll (concat (replicate n (pending_turn cfg status_id)))
  = replicate n (poll_request cfg status_id).
Proof. induction n as [|n IH]; [done|]. cbn. now rewrite IH. Qed.

Lemma sleeps_of_pending n :
  List.filter is_sleep (concat (replicate n (pending_turn cfg status_id)))
  = replicate n (Sleep 2).
Proof. induction n as [|n IH]; [done|]. cbn. now rewrite IH. Qed.
End Loop.

Lemma filter_none {A} (P Q : A -> bool) l :
  (forall x, Q x = true -> P x = false) ->
  forallb Q l = true -> List.filter P l = [].
Proof.
  intros HQP. induction l as [|x l IH]; [done|].
  cbn [forallb]. intros [Hx Hl]%andb_prop.
  cbn [List.filter]. rewrite (HQP x Hx). auto.
Qed.

(** ** Claims on the polling loop *)

Lemma forallb_pending_turns (P : event -> bool) cfg status_id n :
  forallb P (pending_turn cfg status_id) = true ->
  forallb P (concat (replicate n (pending_turn cfg status_id))) = true.
Proof.
  intros H. induction n as [|n IH]; [done|].
  cbn [replicate concat]. now rewrite forallb_app, H, IH.
Qed.

(** When some poll that is issued is answered by a FAILED snapshot, the
    run of the loop is the pending turns before it, that request and the
    log line; it ends normally and leaves the files as they were. *)
Lemma poll_loop_failed_at cfg codec w status_id replies fs (k : nat) r :
  replies !! k = Some r ->
  has_status "FAILED" r = true ->
  (k < length (List.filter is_poll
                 (poll_loop cfg codec w status_id replies fs).1.2))%nat ->
  poll_loop cfg codec w status_id replies fs =
    (fs,
     (concat (replicate k (pending_turn cfg status_id))
      ++ [poll_request cfg status_id; Print "Audio processing failed."])%list,
     Ret tt) /\
  forallb not_speech (poll_loop cfg codec w status_id replies fs).1.2 = true.
Proof.
  intros Hk Hfailed Hissued.
  assert (poll_loop cfg codec w status_id replies fs =
    (fs,
     (concat (replicate k (pending_turn cfg status_id))
      ++ [poll_request cfg status_id; Print "Audio processing failed."])%list,
     Ret tt)) as Hrun.
  { revert k Hk Hissued. induction replies as [|r0 later IH]; intros k Hk Hissued.
    { done. }
    destruct k as [|k].
    - injection Hk as ->. now apply poll_loop_failed.
    - cbn in Hk. destruct (still_pending r0) eqn:Hpend.
      + change (r0 :: later) with ([r0] ++ later)%list in *.
        rewrite poll_loop_pending in * by (cbn; now rewrite Hpend).
        cbn [length replicate concat] in *. rewrite app_nil_r in *.
        assert (k < length (List.filter is_poll
                  (poll_loop cfg codec w status_id later fs).1.2))%nat as Hlater.
        { destruct (poll_loop cfg codec w status_id later fs) as [[fs' t] o].
          cbn in Hissued |- *. lia. }
        rewrite (IH k Hk Hlater). reflexivity.
      + exfalso.
        destruct (poll_once_one_request cfg codec w status_id r0 fs)
          as (fs' & t & o & Hone & Hnopoll & Hstop).
        specialize (Hstop Hpend).
        cbn [poll_loop] in Hissued. rewrite run_bind, Hone in Hissued.
        assert (List.filter is_poll t = []) as Hnone.
        { apply (filter_none _ not_poll); [|done].
          intros e. unfold not_poll. now destruct (is_poll e). }
        destruct o as [[]| |]; [done| | |]; cbn in Hissued;
          rewrite ?List.filter_app, Hnone in Hissued; cbn in Hissued; lia. }
  split; [exact Hrun|].
  rewrite Hrun. cbn [fst snd].
  rewrite forallb_app, forallb_pending_turns by reflexivity. reflexivity.
Qed.

(** A poll answered by anything but a 200 leaves [None] in
    [status_response]; the first test of the loop is guarded by
    [status_response and ...], the [elif] of line 193 is not. *)
Lemma poll_loop_absent cfg codec w status_id r later fs :
  status_code r <> 200 ->
  poll_loop cfg codec w status_id (r :: later) fs =
  (fs,
   [poll_request cfg status_id;
    Print ("Error: " +:+ pretty (status_code r) +:+ " - " +:+ text r)],
   Exc AttributeError).
Proof.
  intros Hcode. cbn [poll_loop]. unfold poll_once.
  rewrite run_assoc, run_bind, run_check_status, (eqb_200_false _ Hcode).
  steps. reflexivity.
Qed.

(** C5 on the code: the submit succeeds, the first poll is answered with
    a 500; [check_status] logs and returns [None], and the run ends with
    the [AttributeError] of [None.get("status")]. *)
Theorem C5_absent_snapshot_raises :
  run demo_config demo_codec absent_snapshot_world ∅ =
  ({["input.wav" := ["R"; "I"; "F"; "F"]%byte]},
   [Print "Recording...";
    MicRecord 441000 44100 1;
    Print "Recording complete.";
    Print "Sending audio for detection...";
    HttpPost "https://detect.example/v1/detect/file"
      (detect_headers demo_config) (detect_payload demo_config "UklGRg==");
    poll_request demo_config "job-1";
    Print "Error: 500 - Internal Server Error"],
   Exc AttributeError).
Proof. vm_compute. reflexivity. Qed.

(** On a SUCCESS snapshot whose output entries all carry a
    [processedFileType] other than ["redacted_audio"], the [for] loop of
    line 140 ends without a match and line 192 leaves the polling loop:
    nothing is raised, nothing is logged, no file is written. *)
Lemma poll_loop_success_without_artifact
    cfg codec w status_id r later m outputs fs :
  snapshot r = Some m ->
  m !! "status" = Some (JStr "SUCCESS") ->
  m !! "output" = Some (JArr outputs) ->
  forallb other_artifact outputs = true ->
  poll_loop cfg codec w status_id (r :: later) fs =
  (fs, [poll_request cfg status_id], Ret tt).
Proof.
  intros Hsnap Hs Hout Hnone.
  rewrite (poll_loop_success _ _ _ _ _ _ _ _ _ Hsnap Hs Hout).
  now rewrite for_outputs_none.
Qed.

(** C6 on the code: the job succeeds at the first poll with one output
    that is not the redacted audio. The run raises nothing and logs
    nothing about it: it ends normally right after that poll, without
    writing [processed_output.wav] and without contacting the speech
    service. *)
Theorem C6_silent_without_artifact :
  let result := run demo_config demo_codec no_artifact_world ∅ in
  result =
    ({["input.wav" := ["R"; "I"; "F"; "F"]%byte]},
     [Print "Recording...";
      MicRecord 441000 44100 1;
      Print "Recording complete.";
      Print "Sending audio for detection...";
      HttpPost "https://detect.example/v1/detect/file"
        (detect_headers demo_config) (detect_payload demo_config "UklGRg==");
      poll_request demo_config "job-1"],
     Ret tt) /\
  ~ (exists e, result.2 = Exc e) /\
  result.1.1 !! "processed_output.wav" = None /\
  forallb not_speech result.1.2 = true.
Proof.
  intros result.
  assert (result =
    ({["input.wav" := ["R"; "I"; "F"; "F"]%byte]},
     [Print "Recording...";
      MicRecord 441000 44100 1;
      Print "Recording complete.";
      Print "Sending audio for detection...";
      HttpPost "https://detect.example/v1/detect/file"
        (detect_headers demo_config) (detect_payload demo_config "UklGRg==");
      poll_request demo_config "job-1"],
     Ret tt)) as Hrun.
  { vm_compute. reflexivity. }
  split; [exact Hrun|]. rewrite Hrun.
  repeat split; try reflexivity.
  intros [e He]. discriminate He.
Qed.

(** ** Which files a computation writes *)

Section Keeps.
Context (path : string).

Lemma keeps_ret {A} (a : A) : keeps path (mret a).
Proof. intros fs. reflexivity. Qed.

Lemma keeps_raise {A} e : keeps path (raise e : M A).
Proof. intros fs. reflexivity. Qed.

Lemma keeps_lift {A} (r : result A) : keeps path (lift r).
Proof. destruct r; [apply keeps_ret | apply keeps_raise]. Qed.

Lemma keeps_act ev : keeps path (act ev).
Proof. intros fs. reflexivity. Qed.

Lemma keeps_print line : keeps path (print line).
Proof. intros fs. reflexivity. Qed.

Lemma keeps_write other data : other <> path -> keeps path (write_file other data).
Proof. intros Hne fs. cbn. now apply lookup_insert_ne. Qed.

Lemma keeps_blocked {A} : keeps path (blocked : M A).
Proof. intros fs. reflexivity. Qed.

Lemma keeps_read other : keeps path (read_file other).
Proof. intros fs. unfold read_file. now destruct (fs !! other). Qed.

Lemma keeps_open other : other <> path -> keeps path (open_wb other).
Proof. intros Hne fs. cbn. now apply lookup_insert_ne. Qed.

Lemma keeps_bind {A B} (m : M A) (k : A -> M B) :
  keeps path m -> (forall a, keeps path (k a)) -> keeps path (m ≫= k).
Proof.
  intros Hm Hk fs. rewrite run_bind. specialize (Hm fs).
  destruct (m fs) as [[fs1 t1] [a| |]]; cbn in *; try exact Hm.
  specialize (Hk a fs1). destruct (k a fs1) as [[fs2 t2] o]. cbn in *.
  congruence.
Qed.
End Keeps.

Ltac keeps_step :=
  first
    [ apply keeps_bind; [|intros ?]
    | apply keeps_ret | apply keeps_raise | apply keeps_lift
    | apply keeps_act | apply keeps_print | apply keeps_read
    | apply keeps_write; discriminate
    | match goal with
      | |- keeps _ (if ?b then _ else _) => destruct b
      | |- keeps _ (match ?x with _ => _ end) => destruct x
      end ].

(** The receive loop writes [output.wav] and nothing else. *)
Lemma keeps_on_message codec acc message :
  keeps "processed_output.wav" (on_message codec acc message).
Proof. unfold on_message, save_reply, json_loads. repeat keeps_step. Qed.

Lemma keeps_receive codec w messages :
  forall acc, keeps "processed_output.wav" (receive codec w acc messages).
Proof.
  induction messages as [|message rest IH]; intros acc; cbn [receive].
  - destruct (ws_closing w); [apply keeps_ret | apply keeps_raise].
  - apply keeps_bind; [apply keeps_on_message|].
    intros [acc'|]; [apply IH | apply keeps_ret].
Qed.

(** ** The transcoder *)

Section Transcoder.
Context (codec : pydub).

Lemma to_model_format_framing audio :
  sample_width (to_model_format codec audio) = 2 /\
  frame_rate (to_model_format codec audio) = 24000 /\
  channels (to_model_format codec audio) = 1.
Proof.
  unfold to_model_format, set_sample_width, set_channels, set_frame_rate.
  destruct (Z.eqb_spec (frame_rate audio) 24000) as [Hr|Hr];
    cbn [channels frame_rate sample_width];
    destruct (Z.eqb_spec (channels audio) 1) as [Hc|Hc];
    cbn [channels frame_rate sample_width];
    destruct (Z.eqb_spec (sample_width audio) 2) as [Hw|Hw];
    cbn [channels frame_rate sample_width]; done.
Qed.

Lemma reply_segment_framing pcm_audio audio :
  reply_segment pcm_audio = Ok audio ->
  raw_data audio = pcm_audio /\
  (sample_width audio, frame_rate audio, channels audio) = (2, 24000, 1).
Proof.
  unfold reply_segment, AudioSegment_init.
  destruct (_ =? 0); [|done]. intros [= <-]. done.
Qed.

Lemma reply_segment_to_model_format audio :
  Z.of_nat (length (raw_data (to_model_format codec audio))) mod 2 = 0 ->
  reply_segment (raw_data (to_model_format codec audio))
  = Ok (to_model_format codec audio).
Proof.
  intros Hwhole.
  destruct (to_model_format_framing audio) as (Hw & Hr & Hc).
  unfold reply_segment, AudioSegment_init.
  change (2 * 1) with 2. rewrite Hwhole. cbn [Z.eqb].
  destruct (to_model_format codec audio) as [d sw fr ch]. cbn in *.
  congruence.
Qed.

Lemma run_audio_to_base64 path data audio fs :
  fs !! path = Some data ->
  from_file codec data = Some audio ->
  audio_to_base64 codec path fs =
  (fs, [], Ret (Base64.b64encode (raw_data (to_model_format codec audio)))).
Proof.
  intros Hfile Hdecode. unfold audio_to_base64.
  mrun. rewrite Hfile, Hdecode. mrun. reflexivity.
Qed.
End Transcoder.

(** C1: what [audio_to_base64] sends decodes to the samples it encoded,
    and the reconstruction of lines 179 to 184 builds from them the very
    segment that was encoded, when those samples are whole 16-bit frames
    (the constructor accepts nothing else); the conversion yields sample
    width 2, frame rate 24000 and one channel, and so does every segment
    the reconstruction returns. *)
Theorem C1_framing_round_trip codec path data audio fs :
  fs !! path = Some data ->
  from_file codec data = Some audio ->
  Z.of_nat (length (raw_data (to_model_format codec audio))) mod 2 = 0 ->
  (exists pcm_base64 pcm_audio,
     audio_to_base64 codec path fs = (fs, [], Ret pcm_base64) /\
     Base64.b64decode pcm_base64 = Ok pcm_audio /\
     reply_segment pcm_audio = Ok (to_model_format codec audio)) /\
  (sample_width (to_model_format codec audio),
   frame_rate (to_model_format codec audio),
   channels (to_model_format codec audio)) = (2, 24000, 1) /\
  (forall pcm_audio reply,
     reply_segment pcm_audio = Ok reply ->
     (sample_width reply, frame_rate reply, channels reply) = (2, 24000, 1)).
Proof.
  intros Hfile Hdecode Hwhole.
  destruct (to_model_format_framing codec audio) as (Hw & Hr & Hc).
  split; [|split].
  - exists (Base64.b64encode (raw_data (to_model_format codec audio))),
           (raw_data (to_model_format codec audio)).
    repeat split.
    + now apply (run_audio_to_base64 codec path data).
    + apply Base64Facts.b64decode_b64encode.
    + now apply reply_segment_to_model_format.
  - now rewrite Hw, Hr, Hc.
  - intros pcm_audio reply Hreply.
    now apply reply_segment_framing in Hreply as [_ Hframing].
Qed.

Lemma C1_framing_round_trip_witness :
  exists pcm_base64 pcm_audio,
    audio_to_base64 demo_codec "processed_output.wav"
      {["processed_output.wav" := ["A"; "B"; "C"; "D"]%byte]}
    = ({["processed_output.wav" := ["A"; "B"; "C"; "D"]%byte]}, [],
       Ret pcm_base64) /\
    Base64.b64decode pcm_base64 = Ok pcm_audio /\
    reply_segment pcm_audio =
      Ok {| raw_data := ["A"; "B"; "C"; "D"]%byte; sample_width := 2;
            frame_rate := 24000; channels := 1 |}.
Proof.
  exact (proj1 (C1_framing_round_trip demo_codec "processed_output.wav"
    ["A"; "B"; "C"; "D"]%byte
    {| raw_data := ["A"; "B"; "C"; "D"]%byte; sample_width := 2;
       frame_rate := 44100; channels := 1 |}
    {["processed_output.wav" := ["A"; "B"; "C"; "D"]%byte]}
    (lookup_singleton_eq _ _) eq_refl eq_refl)).
Defined.

(** ** The redacted audio *)

Section Redacted.
Context (cfg : config) (codec : pydub) (w : world).

Lemma run_forward_redacted m b64 data audio messages fs :
  m !! "processedFile" = Some (JStr b64) ->
  Base64.b64decode b64 = Ok data ->
  from_file codec data = Some audio ->
  ws_session w = Some messages ->
  (2 <= ws_accepts w)%nat ->
  forward_redacted cfg codec w (JObj m) fs =
  pre (session_opening cfg
         (Base64.b64encode (raw_data (to_model_format codec audio))))
    (receive codec w "" messages (<["processed_output.wav" := data]> fs)).
Proof.
  intros Hfile Hdec Haudio Hws Haccepts. unfold forward_redacted.
  mrun. rewrite Hfile. mrun. rewrite Hdec. mrun.
  rewrite insert_insert_eq.
  rewrite run_bind,
    (run_audio_to_base64 codec _ data audio) by (done || apply lookup_insert_eq).
  mrun. rewrite Hws. unfold send_audio, ws_send.
  rewrite !(proj2 (Nat.ltb_lt _ _)) by lia. mrun. reflexivity.
Qed.

(** Once the [processedFile] of the entry is decoded, the decoded bytes
    are in [processed_output.wav] and the line is logged, however the
    later stages end: none of them writes that file again. *)
Lemma forward_redacted_writes m b64 data fs :
  m !! "processedFile" = Some (JStr b64) ->
  Base64.b64decode b64 = Ok data ->
  exists fs' t o,
    forward_redacted cfg codec w (JObj m) fs =
      (fs', Print "Processed audio saved as processed_output.wav" :: t, o) /\
    fs' !! "processed_output.wav" = Some data.
Proof.
  intros Hfile Hdec. unfold forward_redacted.
  mrun. rewrite Hfile. mrun. rewrite Hdec. mrun.
  rewrite insert_insert_eq.
  match goal with |- context [pre _ (?k ?fs1)] =>
    assert (keeps "processed_output.wav" k) as Hkeep;
      [|specialize (Hkeep fs1); destruct (k fs1) as [[fs' t] o]]
  end.
  { unfold audio_to_base64, send_audio, ws_send.
    repeat (keeps_step || apply keeps_receive). }
  cbn in Hkeep |- *. eexists _, _, _. split; [reflexivity|].
  rewrite Hkeep. apply lookup_insert_eq.
Qed.
End Redacted.

(** C10, as the code has it: when the entries before the first
    [redacted_audio] entry all carry another type, the scan handles that
    entry and no other: the entries after it have no effect on the run,
    whatever they are. When its [processedFile] is base64 that decodes,
    the decoded bytes are written to [processed_output.wav]; and when
    those bytes are audio pydub reads, the handshake succeeds and the
    connection takes both messages, the transcoded audio is what is
    sent, on the one session the run opens. *)
Theorem C10_first_redacted_entry_only cfg codec w skipped m rest fs :
  forallb other_artifact skipped = true ->
  redacted_artifact (JObj m) = true ->
  let result := for_outputs cfg codec w (skipped ++ JObj m :: rest) fs in
  (forall others,
     for_outputs cfg codec w (skipped ++ JObj m :: others) fs = result) /\
  (forall b64 data,
     m !! "processedFile" = Some (JStr b64) ->
     Base64.b64decode b64 = Ok data ->
     result.1.1 !! "processed_output.wav" = Some data) /\
  (forall b64 data audio messages,
     m !! "processedFile" = Some (JStr b64) ->
     Base64.b64decode b64 = Ok data ->
     from_file codec data = Some audio ->
     ws_session w = Some messages ->
     (2 <= ws_accepts w)%nat ->
     result =
       pre (session_opening cfg
              (Base64.b64encode (raw_data (to_model_format codec audio))))
         (receive codec w "" messages
            (<["processed_output.wav" := data]> fs)) /\
     List.filter is_speech result.1.2 =
       [WsConnect (URL_WS cfg) (ws_headers cfg);
        WsSend (conversation_item
                  (Base64.b64encode (raw_data (to_model_format codec audio))));
        WsSend response_create]).
Proof.
  intros Hskip Hred result.
  assert (forall others,
            for_outputs cfg codec w (skipped ++ JObj m :: others) fs
            = forward_redacted cfg codec w (JObj m) fs) as Hfirst.
  { intros others. rewrite for_outputs_skip by done.
    now apply for_outputs_redacted. }
  split; [|split].
  - intros others. unfold result. now rewrite !Hfirst.
  - intros b64 data Hfile Hdec. unfold result. rewrite Hfirst.
    destruct (forward_redacted_writes cfg codec w m b64 data fs Hfile Hdec)
      as (fs' & t & o & -> & Hwritten).
    exact Hwritten.
  - intros b64 data audio messages Hfile Hdec Haudio Hws Haccepts.
    unfold result.
    rewrite Hfirst,
      (run_forward_redacted _ _ _ _ _ _ _ _ _ Hfile Hdec Haudio Hws Haccepts).
    split; [reflexivity|].
    pose proof (emits_receive codec w messages ""
                  (<["processed_output.wav" := data]> fs)) as Hprints.
    destruct (receive codec w "" messages _) as [[fs' t] o].
    cbn in Hprints |- *.
    rewrite (filter_none is_speech is_print t); [reflexivity| |done].
    now intros [].
Qed.

Lemma C10_first_redacted_entry_only_witness :
  let w := polling_world [] (Some [audio_done]) in
  let first := artifact "redacted_audio" "QUJDRA==" in
  let second := artifact "redacted_audio" "QQ==" in
  let result := for_outputs demo_config demo_codec w
                  [artifact "entities" "e30="; first; second] ∅ in
  for_outputs demo_config demo_codec w [artifact "entities" "e30="; first] ∅
    = result /\
  result.1.1 !! "processed_output.wav" = Some ["A"; "B"; "C"; "D"]%byte /\
  List.filter is_speech result.1.2 =
    [WsConnect "wss://speech.example" (ws_headers demo_config);
     WsSend (conversation_item "QUJDRA==");
     WsSend response_create].
Proof.
  intros w first second result.
  pose proof (C10_first_redacted_entry_only demo_config demo_codec w
    [artifact "entities" "e30="]
    (list_to_map [("processedFileType", JStr "redacted_audio");
                  ("processedFile", JStr "QUJDRA==")])
    [second] ∅) as H.
  destruct H as (Hrest & Hfile & Hsent); [reflexivity | reflexivity |].
  split; [exact (Hrest [])|]. split.
  - exact (Hfile "QUJDRA==" ["A"; "B"; "C"; "D"]%byte eq_refl eq_refl).
  - refine (proj2 (Hsent "QUJDRA==" ["A"; "B"; "C"; "D"]%byte
      {| raw_data := ["A"; "B"; "C"; "D"]%byte; sample_width := 2;
         frame_rate := 44100; channels := 1 |}
      [audio_done] eq_refl eq_refl eq_refl eq_refl _)).
    cbn. lia.
Defined.

(** C10 as stated fails: the output list of this SUCCESS snapshot holds
    a [redacted_audio] entry whose file decodes, after an entry without
    a [processedFileType]; the run ends in that entry's [KeyError], and
    the redacted entry is neither decoded, nor written, nor sent. *)
Lemma C10_counterexample :
  let result := run demo_config demo_codec untyped_entry_world ∅ in
  existsb redacted_artifact
    [JObj (list_to_map [("processedFile", JStr "e30=")]);
     artifact "redacted_audio" "QUJDRA=="] = true /\
  result.2 = Exc KeyError /\
  result.1.1 !! "processed_output.wav" = None /\
  List.filter is_speech result.1.2 = [].
Proof.
  intros result.
  assert (result =
    ({["input.wav" := ["R"; "I"; "F"; "F"]%byte]},
     (submit_trace demo_config ["R"; "I"; "F"; "F"]%byte
      ++ [poll_request demo_config "job-1"])%list,
     Exc KeyError)) as ->.
  { vm_compute. reflexivity. }
  repeat split.
Qed.

(** ** Polling until success *)

Section Success.
Context (cfg : config) (codec : pydub) (w : world) (status_id : string).

(** The poll that finds SUCCESS is the last request: what follows it in
    the trace is neither a poll nor a sleep. *)
Lemma poll_loop_success_trace r later m fs :
  snapshot r = Some m ->
  m !! "status" = Some (JStr "SUCCESS") ->
  exists fs' t o,
    poll_loop cfg codec w status_id (r :: later) fs
      = (fs', poll_request cfg status_id :: t, o) /\
    forallb no_polling t = true.
Proof.
  intros Hsnap Hs.
  assert (status_of m = JStr "SUCCESS") as Hst.
  { unfold status_of. now rewrite Hs. }
  cbn [poll_loop].
  rewrite run_bind, (poll_once_success _ _ _ _ _ _ _ Hsnap Hst), run_lift_bind.
  destruct (rbind _ _) as [outputs|e].
  - rewrite run_then_ret.
    pose proof (emits_for_outputs cfg codec w outputs fs) as Hquiet.
    destruct (for_outputs cfg codec w outputs fs) as [[fs' t] [[]| |]];
      cbn in Hquiet |- *; rewrite ?app_nil_r; eexists _, _, _; done.
  - cbn. eexists _, _, _. done.
Qed.
End Success.

(** C2: when the first [N] polls find the job pending (any status other
    than SUCCESS and FAILED) and the next one finds SUCCESS, the loop
    issues exactly [N + 1] requests and sleeps 2 seconds after each of
    the first [N]; and when the output list of the snapshot has a
    [redacted_audio] entry, after entries of another type only, whose
    file is base64 that decodes, the loop leaves the decoded bytes in
    [processed_output.wav] and logs it right after the last request. *)
Theorem C2_pending_then_success cfg codec w status_id pend r later m fs :
  forallb still_pending pend = true ->
  snapshot r = Some m ->
  m !! "status" = Some (JStr "SUCCESS") ->
  let N := length pend in
  let result := poll_loop cfg codec w status_id (pend ++ r :: later) fs in
  (exists t,
     result.1.2 =
       (concat (replicate N (pending_turn cfg status_id))
        ++ poll_request cfg status_id :: t)%list /\
     forallb no_polling t = true) /\
  length (List.filter is_poll result.1.2) = S N /\
  List.filter is_sleep result.1.2 = replicate N (Sleep 2) /\
  (forall skipped entry rest b64 data,
     m !! "output" = Some (JArr (skipped ++ JObj entry :: rest)) ->
     forallb other_artifact skipped = true ->
     redacted_artifact (JObj entry) = true ->
     entry !! "processedFile" = Some (JStr b64) ->
     Base64.b64decode b64 = Ok data ->
     result.1.1 !! "processed_output.wav" = Some data /\
     exists t,
       result.1.2 =
         (concat (replicate N (pending_turn cfg status_id))
          ++ poll_request cfg status_id
          :: Print "Processed audio saved as processed_output.wav" :: t)%list).
Proof.
  intros Hpend Hsnap Hs N result.
  assert (result =
    pre (concat (replicate N (pending_turn cfg status_id)))
      (poll_loop cfg codec w status_id (r :: later) fs)) as Hrun.
  { unfold result. now rewrite poll_loop_pending. }
  destruct (poll_loop_success_trace cfg codec w status_id r later m fs Hsnap Hs)
    as (fs' & t & o & Hlast & Hquiet).
  assert (List.filter is_poll t = []) as Hnopoll.
  { apply (filter_none _ no_polling); [|done].
    intros e. unfold no_polling. now destruct (is_poll e). }
  assert (List.filter is_sleep t = []) as Hnosleep.
  { apply (filter_none _ no_polling); [|done].
    intros e. unfold no_polling. destruct (is_poll e), (is_sleep e); done. }
  split; [|split; [|split]].
  - rewrite Hrun, Hlast. cbn. now exists t.
  - rewrite Hrun, Hlast. cbn [pre fst snd].
    rewrite List.filter_app, polls_of_pending. cbn [List.filter is_poll poll_request].
    rewrite Hnopoll, length_app, length_replicate. cbn. lia.
  - rewrite Hrun, Hlast. cbn [pre fst snd].
    rewrite List.filter_app, sleeps_of_pending.
    cbn [List.filter is_sleep poll_request]. rewrite Hnosleep.
    now rewrite app_nil_r.
  - intros skipped entry rest b64 data Hout Hskip Hred Hfile Hdec.
    rewrite Hrun, (poll_loop_success _ _ _ _ _ _ _ _ _ Hsnap Hs Hout).
    rewrite for_outputs_skip, for_outputs_redacted by done.
    destruct (forward_redacted_writes cfg codec w entry b64 data fs Hfile Hdec)
      as (fs1 & t1 & o1 & -> & Hwritten).
    cbn. split; [exact Hwritten|]. now exists t1.
Qed.

Lemma C2_pending_then_success_witness :
  let result := poll_loop demo_config demo_codec extraction_world "job-1"
                  (status_replies extraction_world) ∅ in
  length (List.filter is_poll result.1.2) = 3%nat /\
  List.filter is_sleep result.1.2 = [Sleep 2; Sleep 2] /\
  result.1.1 !! "processed_output.wav" = Some ["A"; "B"; "C"; "D"]%byte.
Proof.
  intros result.
  destruct (C2_pending_then_success demo_config demo_codec extraction_world
    "job-1" [status_reply "PENDING" []; status_reply "PENDING" []]
    (status_reply "SUCCESS"
       [artifact "entities" "e30="; artifact "redacted_audio" "QUJDRA=="])
    []
    (list_to_map
       [("status", JStr "SUCCESS");
        ("output", JArr [artifact "entities" "e30=";
                         artifact "redacted_audio" "QUJDRA=="])])
    ∅ eq_refl eq_refl eq_refl) as (_ & Hpolls & Hsleeps & Hextract).
  split; [exact Hpolls|]. split; [exact Hsleeps|].
  exact (proj1 (Hextract [artifact "entities" "e30="]
    (list_to_map [("processedFileType", JStr "redacted_audio");
                  ("processedFile", JStr "QUJDRA==")])
    [] "QUJDRA==" ["A"; "B"; "C"; "D"]%byte
    eq_refl eq_refl eq_refl eq_refl eq_refl)).
Defined.

(** ** The job identifier *)

Lemma split_spec sep s :
  exists init id,
    split sep s = (init ++ [id])%list /\
    has_char sep id = false /\
    s = rejoin sep init id.
Proof.
  induction s as [|c rest (init & id & Hsplit & Hid & Hrest)].
  - exists [], "". done.
  - cbn [split]. rewrite Hsplit. destruct (Ascii.eqb c sep) eqn:Hc.
    + apply Ascii.eqb_eq in Hc as ->.
      exists ("" :: init), id. repeat split; [done|].
      change (rejoin sep ("" :: init) id) with (String sep (rejoin sep init id)).
      now rewrite <- Hrest.
    + destruct init as [|segment init].
      * exists [], (String c id). cbn in *. rewrite Hc, Hid, Hrest. done.
      * exists (String c segment :: init), id. repeat split; [done|].
        rewrite Hrest. reflexivity.
Qed.

Lemma string_app_assoc (a b c : string) : (a +:+ b) +:+ c = a +:+ (b +:+ c).
Proof.
  induction a as [|x a IH]; [done|].
  change (String x ((a +:+ b) +:+ c) = String x (a +:+ (b +:+ c))).
  now rewrite IH.
Qed.

Lemma rejoin_trailing sep init id :
  rejoin sep init id = id \/ exists p, rejoin sep init id = p +:+ String sep id.
Proof.
  induction init as [|segment init IH]; [now left|].
  right.
  change (rejoin sep (segment :: init) id)
    with (segment +:+ String sep (rejoin sep init id)).
  destruct IH as [->|[p ->]].
  - now exists segment.
  - exists (segment +:+ String sep p). now rewrite string_app_assoc.
Qed.

(** [s.split(sep)[-1]] is the part of [s] after its last [sep], or [s]
    itself when it has none. *)
Lemma trailing_segment sep s :
  exists id,
    py_last (split sep s) = Ok id /\
    has_char sep id = false /\
    (s = id \/ exists p, s = p +:+ String sep id).
Proof.
  destruct (split_spec sep s) as (init & id & Hsplit & Hid & Hs).
  exists id. unfold py_last. rewrite Hsplit, last_snoc.
  repeat split; [done|].
  destruct (rejoin_trailing sep init id) as [H|[p H]];
    [left | right; exists p]; congruence.
Qed.

(** ** The submit *)

Section Submit.
Context (cfg : config) (codec : pydub) (w : world).

Lemma run_record_audio wav fs :
  mic w = Some wav ->
  record_audio w 10 44100 fs =
  (<["input.wav" := wav]> fs,
   [Print "Recording..."; MicRecord 441000 44100 1;
    Print "Recording complete."],
   Ret "input.wav").
Proof.
  intros Hmic. unfold record_audio. rewrite Hmic. mrun. reflexivity.
Qed.

(** With a 200 that carries a [status_url] string, the run goes on to
    poll with the trailing segment of that URL. *)
Lemma run_main_polling wav d u fs :
  mic w = Some wav ->
  status_code (detect_reply w) = 200 ->
  json_body (detect_reply w) = Some (JObj d) ->
  d !! "status_url" = Some (JStr u) ->
  exists status_id,
    py_last (split "/" u) = Ok status_id /\
    run cfg codec w fs =
    pre (submit_trace cfg wav)
      (poll_loop cfg codec w status_id (status_replies w)
         (<["input.wav" := wav]> fs)).
Proof.
  intros Hmic Hcode Hbody Hurl.
  destruct (trailing_segment "/" u) as (status_id & Hlast & _).
  exists status_id. split; [exact Hlast|].
  unfold run, main.
  rewrite run_bind, (run_record_audio _ _ Hmic). mrun.
  rewrite run_bind, (run_detect_audio _ _ _ _ wav) by apply lookup_insert_eq.
  cbn zeta. rewrite Hcode. cbn [Z.eqb Pos.eqb]. unfold response_json.
  rewrite Hbody. mrun.
  assert (truthy (JObj d) = true) as ->.
  { cbn. apply negb_true_iff, bool_decide_eq_false. intros ->.
    now rewrite lookup_empty in Hurl. }
  mrun. rewrite Hurl. rewrite bool_decide_eq_true_2 by done.
  mrun. rewrite Hlast. mrun. reflexivity.
Qed.
End Submit.

(** C9: the run submits the recorded file by an authenticated POST to
    [{URL}/v1/detect/file] with the payload of lines 84 to 99, and, when
    the reply carries a [status_url], polls with the part of it after its
    last [/]. *)
Theorem C9_submit_request_and_job_id cfg codec w wav fs :
  mic w = Some wav ->
  (exists fs' rest o,
     run cfg codec w fs = (fs', (submit_trace cfg wav ++ rest)%list, o)) /\
  (detect_headers cfg !! "Content-Type" = Some "application/json" /\
   detect_headers cfg !! "x-skyflow-account-id" = Some (SKYFLOW_ACCOUNT_ID cfg) /\
   detect_headers cfg !! "Authorization" = Some ("Bearer " +:+ BEARER_TOKEN cfg)) /\
  (exists body,
     detect_payload cfg (Base64.b64encode wav) = JObj body /\
     body !! "file" = Some (JStr (Base64.b64encode wav)) /\
     body !! "data_format" = Some (JStr "wav") /\
     body !! "audio" = Some (JObj (list_to_map
       [("output_processed_audio", JBool true);
        ("options", JObj (list_to_map
           [("bleep_gain", JNum (-30));
            ("bleep_start_padding", JNum 0);
            ("bleep_stop_padding", JNum 0)]))])) /\
     body !! "accuracy" = Some (JStr "high_multilingual") /\
     body !! "restrict_entity_types" =
       Some (JArr [JStr "location"; JStr "ssn"; JStr "account_number"]) /\
     body !! "input_type" = Some (JStr "BASE64") /\
     body !! "vault_id" = Some (JStr (VAULT_ID cfg))) /\
  (forall d u,
     status_code (detect_reply w) = 200 ->
     json_body (detect_reply w) = Some (JObj d) ->
     d !! "status_url" = Some (JStr u) ->
     exists status_id,
       has_char "/" status_id = false /\
       (u = status_id \/ exists p, u = p +:+ String "/" status_id) /\
       run cfg codec w fs =
         pre (submit_trace cfg wav)
           (poll_loop cfg codec w status_id (status_replies w)
              (<["input.wav" := wav]> fs))).
Proof.
  intros Hmic. split; [|split; [|split]].
  - unfold run, main.
    rewrite run_bind, (run_record_audio _ _ _ Hmic). mrun.
    rewrite run_bind, (run_detect_audio _ _ _ _ wav) by apply lookup_insert_eq.
    cbn zeta. destruct (status_code (detect_reply w) =? 200).
    + unfold response_json. destruct (json_body (detect_reply w)) as [j|].
      * mrun.
        match goal with |- context [pre _ (?k ?s)] =>
          destruct (k s) as [[fs' rest] o] end.
        exists fs', rest, o. reflexivity.
      * eexists _, [], _. reflexivity.
    + steps. cbn [truthy]. steps. eexists _, _, _. reflexivity.
  - repeat split; reflexivity.
  - eexists. split; [reflexivity|]. repeat split; reflexivity.
  - intros d u Hcode Hbody Hurl.
    destruct (run_main_polling cfg codec w wav d u fs Hmic Hcode Hbody Hurl)
      as (status_id & Hlast & Hrun).
    destruct (trailing_segment "/" u) as (id & Hid & Hnone & Hsuffix).
    assert (id = status_id) as -> by congruence.
    exists status_id. done.
Qed.

Lemma C9_submit_request_and_job_id_witness :
  exists status_id,
    has_char "/" status_id = false /\
    ("https://detect.example/v1/detect/status/job-1" = status_id \/
     exists p, "https://detect.example/v1/detect/status/job-1"
               = p +:+ String "/" status_id) /\
    run demo_config demo_codec absent_snapshot_world ∅ =
      pre (submit_trace demo_config ["R"; "I"; "F"; "F"]%byte)
        (poll_loop demo_config demo_codec absent_snapshot_world status_id
           [server_error] {["input.wav" := ["R"; "I"; "F"; "F"]%byte]}).
Proof.
  destruct (C9_submit_request_and_job_id demo_config demo_codec
    absent_snapshot_world ["R"; "I"; "F"; "F"]%byte ∅ eq_refl)
    as (_ & _ & _ & Hid).
  exact (Hid _ _ eq_refl eq_refl eq_refl).
Defined.

(** ** The whole run *)

Section Run.
Context (cfg : config) (codec : pydub) (w : world).

(** A run either never polls and never reaches the speech service, or
    it is the submit followed by the polling loop. *)
Lemma run_before_polling fs :
  (exists fs' t o,
     run cfg codec w fs = (fs', t, o) /\ forallb before_polling t = true) \/
  (exists wav status_id,
     mic w = Some wav /\
     run cfg codec w fs =
       pre (submit_trace cfg wav)
         (poll_loop cfg codec w status_id (status_replies w)
            (<["input.wav" := wav]> fs))).
Proof.
  destruct (mic w) as [wav|] eqn:Hmic.
  2: { left. unfold run, main, record_audio. rewrite Hmic. steps.
       eexists _, _, _. split; reflexivity. }
  destruct (Z.eqb_spec (status_code (detect_reply w)) 200) as [Hcode|Hcode].
  2: { left. unfold run, main.
       rewrite run_bind, (run_record_audio _ _ _ Hmic). mrun.
       rewrite run_bind, (run_detect_audio _ _ _ _ wav) by apply lookup_insert_eq.
       cbn zeta. rewrite (eqb_200_false _ Hcode). steps. cbn [truthy]. steps.
       eexists _, _, _. split; reflexivity. }
  destruct (json_body (detect_reply w)) as [j|] eqn:Hbody.
  2: { left. unfold run, main.
       rewrite run_bind, (run_record_audio _ _ _ Hmic). mrun.
       rewrite run_bind, (run_detect_audio _ _ _ _ wav) by apply lookup_insert_eq.
       cbn zeta. rewrite Hcode. cbn [Z.eqb Pos.eqb]. unfold response_json.
       rewrite Hbody. eexists _, _, _. split; reflexivity. }
  assert (forall d u, j = JObj d -> d !! "status_url" = Some (JStr u) ->
            exists status_id,
              run cfg codec w fs =
              pre (submit_trace cfg wav)
                (poll_loop cfg codec w status_id (status_replies w)
                   (<["input.wav" := wav]> fs))) as Hpolls.
  { intros d u -> Hurl.
    destruct (run_main_polling cfg codec w wav d u fs Hmic Hcode Hbody Hurl)
      as (status_id & _ & Hrun).
    now exists status_id. }
  assert (run cfg codec w fs =
    pre (submit_trace cfg wav)
      ((has_url ←
          (if truthy j then lift (py_contains "status_url" j) else mret false);
        if has_url : bool then
          url ← lift (py_getitem j "status_url");
          parts ← lift (py_split url "/");
          status_id ← lift (py_last parts);
          poll_loop cfg codec w status_id (status_replies w)
        else print "Error during audio detection.")
       (<["input.wav" := wav]> fs))) as Hrun.
  { unfold run, main.
    rewrite run_bind, (run_record_audio _ _ _ Hmic). mrun.
    rewrite run_bind, (run_detect_audio _ _ _ _ wav) by apply lookup_insert_eq.
    cbn zeta. rewrite Hcode. cbn [Z.eqb Pos.eqb]. unfold response_json.
    rewrite Hbody. mrun. reflexivity. }
  destruct j as [|b|n|s|l|d].
  - left. rewrite Hrun. cbn [truthy]. steps. eexists _, _, _. split; reflexivity.
  - left. rewrite Hrun. destruct (truthy (JBool b)); steps;
      eexists _, _, _; split; reflexivity.
  - left. rewrite Hrun. destruct (truthy (JNum n)); steps;
      eexists _, _, _; split; reflexivity.
  - left. rewrite Hrun. destruct (truthy (JStr s)); steps;
      [destruct (is_substring "status_url" s)|]; steps;
      eexists _, _, _; split; reflexivity.
  - left. rewrite Hrun. destruct (truthy (JArr l)); steps;
      [destruct (existsb _ l)|]; steps;
      eexists _, _, _; split; reflexivity.
  - destruct (d !! "status_url") as [[| | |u| |]|] eqn:Hurl.
    4: { right. destruct (Hpolls d u eq_refl Hurl) as [status_id Hid].
         now exists wav, status_id. }
    all: left; rewrite Hrun; destruct (truthy (JObj d)); steps;
      rewrite ?Hurl; try rewrite bool_decide_eq_true_2 by done;
      try rewrite bool_decide_eq_false_2 by (intros [? [=]]); steps;
      eexists _, _, _; split; reflexivity.
Qed.

Lemma submit_trace_before_polling wav :
  forallb before_polling (submit_trace cfg wav) = true.
Proof. reflexivity. Qed.
End Run.

Lemma before_polling_no_poll t :
  forallb before_polling t = true -> List.filter is_poll t = [].
Proof.
  apply filter_none. intros e. unfold before_polling.
  now destruct (is_poll e).
Qed.

(** C4: in a run in which some poll that is issued is answered by a
    FAILED snapshot, the trace is the submit, the pending turns before
    that poll, its request and the log line; the run ends normally, only
    [input.wav] has been written, and the trace has no connection to the
    speech service and no message sent to it. *)
Theorem C4_failed_aborts cfg codec w fs (k : nat) r :
  status_replies w !! k = Some r ->
  has_status "FAILED" r = true ->
  (k < length (List.filter is_poll (run cfg codec w fs).1.2))%nat ->
  (exists wav status_id,
     mic w = Some wav /\
     run cfg codec w fs =
       (<["input.wav" := wav]> fs,
        (submit_trace cfg wav
         ++ concat (replicate k (pending_turn cfg status_id))
         ++ [poll_request cfg status_id; Print "Audio processing failed."])%list,
        Ret tt)) /\
  forallb not_speech (run cfg codec w fs).1.2 = true.
Proof.
  intros Hk Hfailed Hissued.
  destruct (run_before_polling cfg codec w fs)
    as [(fs' & t & o & Hrun & Hquiet)|(wav & status_id & Hmic & Hrun)].
  { rewrite Hrun in Hissued. cbn in Hissued.
    rewrite (before_polling_no_poll _ Hquiet) in Hissued. cbn in Hissued. lia. }
  assert (k < length (List.filter is_poll
                (poll_loop cfg codec w status_id (status_replies w)
                   (<["input.wav" := wav]> fs)).1.2))%nat as Hloop.
  { rewrite Hrun in Hissued.
    destruct (poll_loop cfg codec w status_id (status_replies w) _)
      as [[fs' t] o].
    cbn in Hissued |- *. exact Hissued. }
  destruct (poll_loop_failed_at cfg codec w status_id _ _ k r Hk Hfailed Hloop)
    as [Hfailed_at _].
  rewrite Hrun, Hfailed_at. cbn [pre fst snd]. split.
  - now exists wav, status_id.
  - rewrite !forallb_app, forallb_pending_turns by reflexivity. reflexivity.
Qed.

Lemma C4_failed_aborts_witness :
  exists wav status_id,
    mic failing_job_world = Some wav /\
    run demo_config demo_codec failing_job_world ∅ =
      (<["input.wav" := wav]> ∅,
       (submit_trace demo_config wav
        ++ concat (replicate 1 (pending_turn demo_config status_id))
        ++ [poll_request demo_config status_id;
            Print "Audio processing failed."])%list,
       Ret tt).
Proof.
  refine (proj1 (C4_failed_aborts demo_config demo_codec failing_job_world ∅ 1
    {| status_code := 200; text := "";
       json_body := Some (JObj (list_to_map [("status", JStr "FAILED")])) |}
    _ _ _)).
  - reflexivity.
  - reflexivity.
  - vm_compute. lia.
Defined.

(** * Further properties of the script *)

(** ** Recording and submitting *)

(** X1: without an input device the run ends in the recorder's error
    right after the attempt: no file is written and no request is
    sent. *)
Theorem X1_no_input_device cfg codec w fs :
  mic w = None ->
  run cfg codec w fs =
  (fs, [Print "Recording..."; MicRecord 441000 44100 1], Exc PortAudioError).
Proof.
  intros Hmic. unfold run, main, record_audio. rewrite Hmic. steps.
  reflexivity.
Qed.

Lemma X1_no_input_device_witness :
  run demo_config demo_codec silent_world ∅ =
  (∅, [Print "Recording..."; MicRecord 441000 44100 1], Exc PortAudioError).
Proof.
  apply (X1_no_input_device demo_config demo_codec silent_world ∅).
  reflexivity.
Defined.

(** X2: [convert_wav_to_base64] reads the file without changing it, and
    what it returns decodes back to the bytes of the file. *)
Theorem X2_convert_wav_round_trip path data fs :
  fs !! path = Some data ->
  exists base64_encoded,
    convert_wav_to_base64 path fs = (fs, [], Ret base64_encoded) /\
    Base64.b64decode base64_encoded = Ok data.
Proof.
  intros Hfile. exists (Base64.b64encode data). split.
  - unfold convert_wav_to_base64. mrun. now rewrite Hfile.
  - apply Base64Facts.b64decode_b64encode.
Qed.

Lemma X2_convert_wav_round_trip_witness :
  exists base64_encoded,
    convert_wav_to_base64 "input.wav" {["input.wav" := ["R"; "I"]%byte]}
    = ({["input.wav" := ["R"; "I"]%byte]}, [], Ret base64_encoded) /\
    Base64.b64decode base64_encoded = Ok ["R"; "I"]%byte.
Proof.
  exact (X2_convert_wav_round_trip "input.wav" ["R"; "I"]%byte
           {["input.wav" := ["R"; "I"]%byte]} (lookup_singleton_eq _ _)).
Defined.

Section AfterSubmit.
Context (cfg : config) (codec : pydub) (w : world).

(** The run up to the reply to the submit, and the rest of [main] on the
    value [detect_audio] returns. *)
Lemma run_submit wav fs :
  mic w = Some wav ->
  run cfg codec w fs =
  match
    (if status_code (detect_reply w) =? 200
     then response_json (detect_reply w) (<["input.wav" := wav]> fs)
     else (<["input.wav" := wav]> fs,
           [Print ("Error: " +:+ pretty (status_code (detect_reply w))
                   +:+ " - " +:+ text (detect_reply w))],
           Ret JNull))
  with
  | (fs1, t1, Ret detect_response) =>
      pre (submit_trace cfg wav ++ t1)%list
        ((has_url ←
            (if truthy detect_response
             then lift (py_contains "status_url" detect_response)
             else mret false);
          if has_url : bool then
            url ← lift (py_getitem detect_response "status_url");
            parts ← lift (py_split url "/");
            status_id ← lift (py_last parts);
            poll_loop cfg codec w status_id (status_replies w)
          else print "Error during audio detection.") fs1)
  | (fs1, t1, Exc e) => (fs1, (submit_trace cfg wav ++ t1)%list, Exc e)
  | (fs1, t1, Blocked) => (fs1, (submit_trace cfg wav ++ t1)%list, Blocked)
  end.
Proof.
  intros Hmic. unfold run, main.
  rewrite run_bind, (run_record_audio _ _ _ Hmic). mrun.
  rewrite run_bind, (run_detect_audio _ _ _ _ wav) by apply lookup_insert_eq.
  cbn zeta. destruct (status_code (detect_reply w) =? 200).
  - unfold response_json. destruct (json_body (detect_reply w)); mrun;
      reflexivity.
  - mrun. reflexivity.
Qed.
End AfterSubmit.

(** X3: a 200 whose body is not JSON makes [response.json()] raise, and
    neither function catches it: the run ends in [JSONDecodeError] right
    after the submit, and the polling loop right after the request. *)
Theorem X3_unparsable_body_raises cfg codec w wav status_id r later fs :
  mic w = Some wav ->
  status_code r = 200 ->
  json_body r = None ->
  (detect_reply w = r ->
   run cfg codec w fs =
     (<["input.wav" := wav]> fs, submit_trace cfg wav, Exc JSONDecodeError)) /\
  poll_loop cfg codec w status_id (r :: later) fs =
    (fs, [poll_request cfg status_id], Exc JSONDecodeError).
Proof.
  intros Hmic Hcode Hbody. split.
  - intros Hreply. rewrite (run_submit _ _ _ _ _ Hmic), Hreply, Hcode.
    cbn [Z.eqb Pos.eqb]. unfold response_json. rewrite Hbody.
    cbn. rewrite ?app_nil_r. reflexivity.
  - cbn [poll_loop]. unfold poll_once.
    rewrite run_assoc, run_bind, run_check_status, Hcode.
    cbn [Z.eqb Pos.eqb]. unfold response_json. rewrite Hbody. reflexivity.
Qed.

Lemma X3_unparsable_body_raises_witness :
  poll_loop demo_config demo_codec silent_world "job-1"
    [{| status_code := 200; text := "<html>"; json_body := None |}] ∅ =
  (∅, [poll_request demo_config "job-1"], Exc JSONDecodeError).
Proof.
  refine (proj2 (X3_unparsable_body_raises demo_config demo_codec
    (submit_world job_reply) ["R"; "I"; "F"; "F"]%byte "job-1"
    {| status_code := 200; text := "<html>"; json_body := None |} [] ∅
    eq_refl eq_refl eq_refl)).
Defined.

(** X4: when the submit is answered by anything but a 200, the run logs
    the status and body, then ["Error during audio detection."], and
    ends normally: it never polls. *)
Theorem X4_submit_rejected cfg codec w wav fs :
  mic w = Some wav ->
  status_code (detect_reply w) <> 200 ->
  run cfg codec w fs =
  (<["input.wav" := wav]> fs,
   (submit_trace cfg wav
    ++ [Print ("Error: " +:+ pretty (status_code (detect_reply w)) +:+ " - "
               +:+ text (detect_reply w));
        Print "Error during audio detection."])%list,
   Ret tt).
Proof.
  intros Hmic Hcode.
  rewrite (run_submit _ _ _ _ _ Hmic), (eqb_200_false _ Hcode).
  cbn [truthy]. steps. reflexivity.
Qed.

Lemma X4_submit_rejected_witness :
  run demo_config demo_codec (submit_world server_error) ∅ =
  (<["input.wav" := ["R"; "I"; "F"; "F"]%byte]> ∅,
   (submit_trace demo_config ["R"; "I"; "F"; "F"]%byte
    ++ [Print "Error: 500 - Internal Server Error";
        Print "Error during audio detection."])%list,
   Ret tt).
Proof.
  apply (X4_submit_rejected demo_config demo_codec (submit_world server_error)
           ["R"; "I"; "F"; "F"]%byte ∅); [reflexivity | cbn; lia].
Defined.

(** X5: a 200 whose body is falsy ([null], [{}], [0], an empty string or
    list) or an object without [status_url] ends the run normally with
    ["Error during audio detection."]; the run never polls. *)
Theorem X5_no_status_url cfg codec w wav j fs :
  mic w = Some wav ->
  status_code (detect_reply w) = 200 ->
  json_body (detect_reply w) = Some j ->
  truthy j = false \/ (exists d, j = JObj d /\ d !! "status_url" = None) ->
  run cfg codec w fs =
  (<["input.wav" := wav]> fs,
   (submit_trace cfg wav ++ [Print "Error during audio detection."])%list,
   Ret tt).
Proof.
  intros Hmic Hcode Hbody Hj.
  rewrite (run_submit _ _ _ _ _ Hmic), Hcode. cbn [Z.eqb Pos.eqb].
  unfold response_json. rewrite Hbody.
  cbn beta iota delta [mret M_ret]. rewrite app_nil_r.
  destruct Hj as [Hfalsy|(d & -> & Hurl)].
  - rewrite Hfalsy. steps. reflexivity.
  - destruct (truthy (JObj d)); steps; rewrite ?Hurl;
      try rewrite bool_decide_eq_false_2 by (intros [? [=]]); steps;
      reflexivity.
Qed.

Lemma X5_no_status_url_witness :
  run demo_config demo_codec
    (submit_world (json_reply (JObj (list_to_map [("message", JStr "queued")]))))
    ∅ =
  (<["input.wav" := ["R"; "I"; "F"; "F"]%byte]> ∅,
   (submit_trace demo_config ["R"; "I"; "F"; "F"]%byte
    ++ [Print "Error during audio detection."])%list,
   Ret tt).
Proof.
  apply (X5_no_status_url demo_config demo_codec _ ["R"; "I"; "F"; "F"]%byte
           (JObj (list_to_map [("message", JStr "queued")])) ∅);
    [reflexivity | reflexivity | reflexivity |].
  right. eexists. split; reflexivity.
Defined.

(** X6: a [status_url] that is not a string passes the test of line 132
    and makes line 133 raise: the run ends in [AttributeError] without a
    poll. *)
Theorem X6_status_url_not_a_string cfg codec w wav d v fs :
  mic w = Some wav ->
  status_code (detect_reply w) = 200 ->
  json_body (detect_reply w) = Some (JObj d) ->
  d !! "status_url" = Some v ->
  (forall s, v <> JStr s) ->
  run cfg codec w fs =
  (<["input.wav" := wav]> fs, submit_trace cfg wav, Exc AttributeError).
Proof.
  intros Hmic Hcode Hbody Hurl Hv.
  rewrite (run_submit _ _ _ _ _ Hmic), Hcode. cbn [Z.eqb Pos.eqb].
  unfold response_json. rewrite Hbody.
  cbn beta iota delta [mret M_ret]. rewrite app_nil_r.
  assert (truthy (JObj d) = true) as ->.
  { cbn. apply negb_true_iff, bool_decide_eq_false. intros ->.
    now rewrite lookup_empty in Hurl. }
  steps. rewrite Hurl. rewrite bool_decide_eq_true_2 by done. steps.
  destruct v; steps; try reflexivity. now destruct (Hv s).
Qed.

Lemma X6_status_url_not_a_string_witness :
  run demo_config demo_codec
    (submit_world (json_reply (JObj (list_to_map [("status_url", JNull)])))) ∅ =
  (<["input.wav" := ["R"; "I"; "F"; "F"]%byte]> ∅,
   submit_trace demo_config ["R"; "I"; "F"; "F"]%byte, Exc AttributeError).
Proof.
  apply (X6_status_url_not_a_string demo_config demo_codec _
           ["R"; "I"; "F"; "F"]%byte
           (list_to_map [("status_url", JNull)]) JNull ∅);
    try reflexivity. intros s. discriminate.
Defined.

(** ** Polling *)

(** X7: a SUCCESS snapshot without an [output] field makes line 140
    raise [KeyError] right after the request. *)
Theorem X7_success_without_output cfg codec w status_id r later m fs :
  snapshot r = Some m ->
  m !! "status" = Some (JStr "SUCCESS") ->
  m !! "output" = None ->
  poll_loop cfg codec w status_id (r :: later) fs =
  (fs, [poll_request cfg status_id], Exc KeyError).
Proof.
  intros Hsnap Hs Hout.
  assert (status_of m = JStr "SUCCESS") as Hst.
  { unfold status_of. now rewrite Hs. }
  cbn [poll_loop].
  rewrite run_bind, (poll_once_success _ _ _ _ _ _ _ Hsnap Hst).
  cbn [py_getitem]. rewrite Hout. reflexivity.
Qed.

Lemma X7_success_without_output_witness :
  poll_loop demo_config demo_codec silent_world "job-1"
    [json_reply (JObj (list_to_map [("status", JStr "SUCCESS")]))] ∅ =
  (∅, [poll_request demo_config "job-1"], Exc KeyError).
Proof.
  apply (X7_success_without_output demo_config demo_codec silent_world "job-1"
           _ [] (list_to_map [("status", JStr "SUCCESS")]) ∅); reflexivity.
Defined.

(** X8: a 200 whose JSON body is not an object ([null], a list, a
    string, a number) ends the loop in [AttributeError] right after the
    request: [.get] is called on it. *)
Theorem X8_snapshot_not_an_object cfg codec w status_id r later v fs :
  status_code r = 200 ->
  json_body r = Some v ->
  (forall m, v <> JObj m) ->
  poll_loop cfg codec w status_id (r :: later) fs =
  (fs, [poll_request cfg status_id], Exc AttributeError).
Proof.
  intros Hcode Hbody Hv. cbn [poll_loop]. unfold poll_once.
  rewrite run_assoc, run_bind, run_check_status, Hcode.
  cbn [Z.eqb Pos.eqb]. unfold response_json. rewrite Hbody.
  cbn beta iota delta [mret M_ret pre].
  destruct v as [| | | | |m]; [| | | | |now destruct (Hv m)]; steps;
    destruct (truthy _); steps; reflexivity.
Qed.

Lemma X8_snapshot_not_an_object_witness :
  poll_loop demo_config demo_codec silent_world "job-1"
    [json_reply (JArr [JStr "SUCCESS"])] ∅ =
  (∅, [poll_request demo_config "job-1"], Exc AttributeError).
Proof.
  apply (X8_snapshot_not_an_object demo_config demo_codec silent_world "job-1"
           _ [] (JArr [JStr "SUCCESS"]) ∅); try reflexivity.
  intros m. discriminate.
Defined.

(** X9: the loop has no bound of its own: as long as every reply is a
    pending snapshot it polls and sleeps once per reply, changes no file,
    and asks for one more reply. *)
Theorem X9_polling_has_no_ceiling cfg codec w status_id replies fs :
  forallb still_pending replies = true ->
  poll_loop cfg codec w status_id replies fs =
  (fs, concat (replicate (length replies) (pending_turn cfg status_id)),
   Blocked).
Proof.
  intros Hpend.
  rewrite <- (app_nil_r replies) at 1.
  rewrite poll_loop_pending by done. cbn. now rewrite app_nil_r.
Qed.

Lemma X9_polling_has_no_ceiling_witness :
  poll_loop demo_config demo_codec silent_world "job-1"
    [status_reply "PENDING" []; status_reply "IN_PROGRESS" [];
     json_reply (JObj ∅)] ∅ =
  (∅, concat (replicate 3 (pending_turn demo_config "job-1")), Blocked).
Proof.
  apply (X9_polling_has_no_ceiling demo_config demo_codec silent_world "job-1"
           [status_reply "PENDING" []; status_reply "IN_PROGRESS" [];
            json_reply (JObj ∅)] ∅).
  reflexivity.
Defined.

Section NoSuccess.
Context (cfg : config) (codec : pydub) (w : world) (status_id : string).

(** A turn of the loop on a reply that does not report SUCCESS changes
    no file and does not reach the speech service. *)
Lemma poll_once_without_success r fs :
  has_status "SUCCESS" r = false ->
  exists t o,
    poll_once cfg codec w status_id r fs = (fs, t, o) /\
    forallb not_speech t = true.
Proof.
  intros Hno.
  destruct (still_pending r) eqn:Hpend.
  { rewrite (poll_once_pending _ _ _ _ _ _ Hpend). eexists _, _. done. }
  destruct (snapshot r) as [m|] eqn:Hsnap.
  - unfold still_pending in Hpend. unfold has_status in Hno.
    rewrite Hsnap in Hpend, Hno. rewrite Hno in Hpend. cbn in Hpend.
    apply negb_false_iff in Hpend.
    assert (has_status "FAILED" r = true) as Hfailed.
    { unfold has_status. now rewrite Hsnap. }
    rewrite (poll_once_failed _ _ _ _ _ _ Hfailed). eexists _, _. done.
  - unfold poll_once. rewrite run_bind, run_check_status.
    unfold snapshot in Hsnap.
    destruct (status_code r =? 200).
    + unfold response_json. destruct (json_body r) as [v|].
      * cbn [pre].
        destruct v; try done; steps;
          destruct (truthy _) eqn:Htruthy; steps;
          eexists _, _; split; done.
      * cbn. eexists _, _. split; done.
    + steps. eexists _, _. split; done.
Qed.

Lemma poll_loop_without_success replies fs :
  forallb (fun r => negb (has_status "SUCCESS" r)) replies = true ->
  exists t o,
    poll_loop cfg codec w status_id replies fs = (fs, t, o) /\
    forallb not_speech t = true.
Proof.
  induction replies as [|r later IH]; cbn [forallb poll_loop].
  - intros _. eexists _, _. split; reflexivity.
  - intros [Hr Hlater]%andb_prop. apply negb_true_iff in Hr.
    destruct (poll_once_without_success r fs Hr) as (t & o & Hone & Hquiet).
    rewrite run_bind, Hone.
    destruct o as [[]| |]; try (eexists _, _; split; [reflexivity|done]).
    + destruct (IH Hlater) as (t' & o' & Hrest & Hquiet').
      rewrite Hrest. cbn. eexists _, _. split; [reflexivity|].
      now rewrite forallb_app, Hquiet, Hquiet'.
    + cbn. eexists _, _. split; [reflexivity|].
      now rewrite app_nil_r.
Qed.
End NoSuccess.

Lemma before_polling_not_speech t :
  forallb before_polling t = true -> forallb not_speech t = true.
Proof.
  rewrite !forallb_forall. intros H e He. specialize (H e He).
  unfold before_polling, not_speech in *.
  now destruct (is_poll e), (is_speech e).
Qed.

(** X10: unless some poll is answered by a SUCCESS snapshot, a run never
    connects to the speech service and never sends it a message, and the
    polling loop leaves every file as it found it. *)
Theorem X10_no_speech_without_success cfg codec w fs :
  forallb (fun r => negb (has_status "SUCCESS" r)) (status_replies w) = true ->
  forallb not_speech (run cfg codec w fs).1.2 = true /\
  (forall status_id fs0,
     (poll_loop cfg codec w status_id (status_replies w) fs0).1.1 = fs0).
Proof.
  intros Hno. split.
  - destruct (run_before_polling cfg codec w fs)
      as [(fs' & t & o & Hrun & Hquiet)|(wav & status_id & Hmic & Hrun)].
    + rewrite Hrun. cbn. now apply before_polling_not_speech.
    + rewrite Hrun.
      destruct (poll_loop_without_success cfg codec w status_id _
                  (<["input.wav" := wav]> fs) Hno) as (t & o & -> & Hquiet).
      cbn [pre fst snd]. rewrite forallb_app, Hquiet. reflexivity.
  - intros status_id fs0.
    now destruct (poll_loop_without_success cfg codec w status_id _ fs0 Hno)
      as (t & o & -> & _).
Qed.

Lemma X10_no_speech_without_success_witness :
  forallb not_speech
    (run demo_config demo_codec
       (polling_world [status_reply "PENDING" []; server_error] (Some [])) ∅).1.2
  = true.
Proof.
  refine (proj1 (X10_no_speech_without_success demo_config demo_codec
    (polling_world [status_reply "PENDING" []; server_error] (Some [])) ∅ _)).
  reflexivity.
Defined.

(** ** The redacted artifact *)

(** X11: an output entry without a [processedFileType], met before any
    [redacted_audio] entry, ends the scan in [KeyError]: a matching entry
    after it is never looked at and no file is written. *)
Theorem X11_entry_without_type cfg codec w skipped m rest fs :
  forallb other_artifact skipped = true ->
  m !! "processedFileType" = None ->
  for_outputs cfg codec w (skipped ++ JObj m :: rest) fs = (fs, [], Exc KeyError).
Proof.
  intros Hskip Htype. rewrite for_outputs_skip by done.
  cbn [for_outputs]. mrun. rewrite Htype. reflexivity.
Qed.

Lemma X11_entry_without_type_witness :
  for_outputs demo_config demo_codec silent_world
    [artifact "entities" "e30=";
     JObj (list_to_map [("processedFile", JStr "QQ==")]);
     artifact "redacted_audio" "QUJDRA=="] ∅
  = (∅, [], Exc KeyError).
Proof.
  apply (X11_entry_without_type demo_config demo_codec silent_world
           [artifact "entities" "e30="]
           (list_to_map [("processedFile", JStr "QQ==")])
           [artifact "redacted_audio" "QUJDRA=="] ∅); reflexivity.
Defined.

(** X12: when the [processedFile] of the redacted entry is not valid
    base64, [processed_output.wav] has already been opened for writing:
    the run ends in the decoder's error with the file left empty,
    whatever it held before, nothing logged and the speech service not
    contacted. *)
Theorem X12_bad_base64_truncates_file cfg codec w m b64 e fs :
  m !! "processedFile" = Some (JStr b64) ->
  Base64.b64decode b64 = Raise e ->
  forward_redacted cfg codec w (JObj m) fs =
  (<["processed_output.wav" := []]> fs, [], Exc e).
Proof.
  intros Hfile Hdec. unfold forward_redacted.
  mrun. rewrite Hfile. mrun. rewrite Hdec. reflexivity.
Qed.

Lemma X12_bad_base64_truncates_file_witness :
  forward_redacted demo_config demo_codec silent_world
    (artifact "redacted_audio" "QQ=")
    {["processed_output.wav" := ["o"; "l"; "d"]%byte]}
  = (<["processed_output.wav" := []]>
       {["processed_output.wav" := ["o"; "l"; "d"]%byte]},
     [], Exc BinasciiError).
Proof.
  apply (X12_bad_base64_truncates_file demo_config demo_codec silent_world
           (list_to_map [("processedFileType", JStr "redacted_audio");
                         ("processedFile", JStr "QQ=")])
           "QQ=" BinasciiError); reflexivity.
Defined.

(** X13: when the decoded artifact is not audio pydub can read, the run
    ends in its error after the file is written and logged; no
    connection to the speech service is attempted. *)
Theorem X13_undecodable_artifact cfg codec w m b64 data fs :
  m !! "processedFile" = Some (JStr b64) ->
  Base64.b64decode b64 = Ok data ->
  from_file codec data = None ->
  forward_redacted cfg codec w (JObj m) fs =
  (<["processed_output.wav" := data]> fs,
   [Print "Processed audio saved as processed_output.wav"],
   Exc CouldntDecodeError).
Proof.
  intros Hfile Hdec Haudio. unfold forward_redacted.
  mrun. rewrite Hfile. mrun. rewrite Hdec. mrun.
  rewrite insert_insert_eq. unfold audio_to_base64. mrun.
  rewrite lookup_insert_eq, Haudio. mrun. reflexivity.
Qed.

Lemma X13_undecodable_artifact_witness :
  forward_redacted demo_config
    {| from_file := fun _ => None; ratecv := fun _ a => raw_data a;
       remix := fun _ a => raw_data a; lin2lin := fun _ a => raw_data a;
       wav_container := fun a => raw_data a |}
    silent_world (artifact "redacted_audio" "e30=") ∅
  = (<["processed_output.wav" := ["{"; "}"]%byte]> ∅,
     [Print "Processed audio saved as processed_output.wav"],
     Exc CouldntDecodeError).
Proof.
  apply (X13_undecodable_artifact demo_config _ silent_world
           (list_to_map [("processedFileType", JStr "redacted_audio");
                         ("processedFile", JStr "e30=")])
           "e30=" ["{"; "}"]%byte ∅); reflexivity.
Defined.

(** X14: when the handshake with the speech service fails, the run ends
    in the connection error after the one attempt: the redacted file
    stays written, nothing is sent and [output.wav] is not touched. *)
Theorem X14_handshake_failure cfg codec w m b64 data audio fs :
  m !! "processedFile" = Some (JStr b64) ->
  Base64.b64decode b64 = Ok data ->
  from_file codec data = Some audio ->
  ws_session w = None ->
  forward_redacted cfg codec w (JObj m) fs =
  (<["processed_output.wav" := data]> fs,
   [Print "Processed audio saved as processed_output.wav";
    WsConnect (URL_WS cfg) (ws_headers cfg)],
   Exc ConnectionError).
Proof.
  intros Hfile Hdec Haudio Hws. unfold forward_redacted.
  mrun. rewrite Hfile. mrun. rewrite Hdec. mrun.
  rewrite insert_insert_eq.
  rewrite run_bind,
    (run_audio_to_base64 codec _ data audio) by (done || apply lookup_insert_eq).
  mrun. rewrite Hws. reflexivity.
Qed.

Lemma X14_handshake_failure_witness :
  forward_redacted demo_config demo_codec silent_world
    (artifact "redacted_audio" "QUJDRA==") ∅
  = (<["processed_output.wav" := ["A"; "B"; "C"; "D"]%byte]> ∅,
     [Print "Processed audio saved as processed_output.wav";
      WsConnect (URL_WS demo_config) (ws_headers demo_config)],
     Exc ConnectionError).
Proof.
  apply (X14_handshake_failure demo_config demo_codec silent_world
           (list_to_map [("processedFileType", JStr "redacted_audio");
                         ("processedFile", JStr "QUJDRA==")])
           "QUJDRA==" ["A"; "B"; "C"; "D"]%byte
           {| raw_data := ["A"; "B"; "C"; "D"]%byte; sample_width := 2;
              frame_rate := 44100; channels := 1 |} ∅); reflexivity.
Defined.

(** ** The reply *)

Section Reply.
Context (codec : pydub) (w : world).

Lemma receive_fragments fragments :
  forall acc rest fs,
    receive codec w acc (map audio_delta fragments ++ rest) fs =
    receive codec w (acc +:+ joined fragments) rest fs.
Proof.
  induction fragments as [|fragment fragments IH]; intros acc rest fs.
  - cbn [map app joined foldr].
    replace (acc +:+ "") with acc; [done|].
    clear. induction acc as [|c acc IH]; [done|].
    change (String c acc = String c (acc +:+ "")). now rewrite <- IH.
  - cbn [map]. rewrite <- app_comm_cons, receive_delta, IH.
    change (joined (fragment :: fragments))
      with (fragment +:+ joined fragments).
    now rewrite string_app_assoc.
Qed.
End Reply.

(** X15: the receive loop appends the fragments of the
    [response.audio.delta] events to the accumulator in the order they
    arrive, with nothing between them; it writes no file and logs
    nothing on the way. *)
Theorem X15_fragments_accumulate_in_order codec w acc fragments rest fs :
  receive codec w acc (map audio_delta fragments ++ rest) fs =
  receive codec w (acc +:+ joined fragments) rest fs.
Proof. apply receive_fragments. Qed.

(** X16: when the connection closes before a [response.audio.done]
    event, the fragments received are dropped: [output.wav] is not
    written and nothing is logged. The loop ends normally when the close
    code is 1000 or 1001, and in the connection's error otherwise. *)
Theorem X16_close_before_done codec w acc fragments fs :
  receive codec w acc (map audio_delta fragments) fs =
  (fs, [],
   match ws_closing w with
   | ClosedOK => Ret tt
   | ClosedError => Exc ConnectionClosed
   end).
Proof.
  rewrite <- (app_nil_r (map audio_delta fragments)), receive_fragments.
  cbn [receive]. now destruct (ws_closing w).
Qed.

(** X17: on [response.audio.done], when the accumulator decodes to whole
    16-bit frames, the loop writes to [output.wav] the container of a
    segment with those samples, sample width 2, frame rate 24000 and one
    channel, logs two lines and stops: the messages after it are never
    read. *)
Theorem X17_done_saves_reply codec w acc pcm_audio rest fs :
  Base64.b64decode acc = Ok pcm_audio ->
  Z.of_nat (length pcm_audio) mod 2 = 0 ->
  receive codec w acc (audio_done :: rest) fs =
  (<["output.wav" :=
       wav_container codec
         {| raw_data := pcm_audio; sample_width := 2; frame_rate := 24000;
            channels := 1 |}]> fs,
   reply_saved, Ret tt).
Proof.
  intros Hdec Hwhole. rewrite receive_done. unfold save_reply.
  mrun. rewrite Hdec. mrun.
  unfold reply_segment, AudioSegment_init. change (2 * 1) with 2.
  rewrite Hwhole. cbn [Z.eqb]. mrun. reflexivity.
Qed.

Lemma X17_done_saves_reply_witness :
  receive demo_codec silent_world "QUJDRA==" [audio_done; audio_delta "QQ=="] ∅ =
  (<["output.wav" := ["A"; "B"; "C"; "D"]%byte]> ∅, reply_saved, Ret tt).
Proof.
  apply (X17_done_saves_reply demo_codec silent_world "QUJDRA=="
           ["A"; "B"; "C"; "D"]%byte
           [audio_delta "QQ=="] ∅); reflexivity.
Defined.

(** X18: a [response.audio.delta] event whose [delta] is missing or not
    a string makes line 170 raise [TypeError]: the loop ends there with
    no file written. *)
Theorem X18_delta_without_fragment codec w acc (m : gmap string json) rest fs :
  m !! "type" = Some (JStr "response.audio.delta") ->
  (forall fragment, default JNull (m !! "delta") <> JStr fragment) ->
  receive codec w acc (Some (JObj m) :: rest) fs = (fs, [], Exc TypeError).
Proof.
  intros Htype Hdelta. cbn [receive]. rewrite run_bind.
  unfold on_message. mrun. rewrite Htype. steps.
  destruct (default JNull (m !! "delta")) as [| | |fragment| |] eqn:Hd;
    try reflexivity.
  now destruct (Hdelta fragment).
Qed.

Lemma X18_delta_without_fragment_witness :
  receive demo_codec silent_world "QQ=="
    [Some (JObj (list_to_map [("type", JStr "response.audio.delta")]));
     audio_done] ∅
  = (∅, [], Exc TypeError).
Proof.
  apply (X18_delta_without_fragment demo_codec silent_world "QQ=="
           (list_to_map [("type", JStr "response.audio.delta")])
           [audio_done] ∅); [reflexivity|].
  intros fragment. discriminate.
Defined.

(** ** Decoding a reply that arrived in fragments *)

Module Base64Stream.
Import Base64 Base64Facts.

Lemma append_cons c s1 s2 : String c s1 +:+ s2 = String c (s1 +:+ s2).
Proof. reflexivity. Qed.

(** At the start of a quad the other two registers do not matter. *)
Lemma a2b_base64_quad_start s :
  forall l p, a2b_base64 s 0 l p = a2b_base64 s 0 0 0.
Proof.
  induction s as [|ch rest IH]; intros l p; [done|].
  cbn [a2b_base64]. destruct (Ascii.eqb ch pad).
  - cbn. apply IH.
  - destruct (dec_char ch); [reflexivity|]. apply IH.
Qed.

Lemma after_bytes_emit b bs r :
  emit b (after_bytes bs r) = after_bytes (b :: bs) r.
Proof. now destruct r. Qed.

Lemma length_triple {A} (a b c : A) rest :
  (length (a :: b :: c :: rest) mod 3 = length rest mod 3)%nat.
Proof.
  cbn [length].
  replace (S (S (S (length rest)))) with (length rest + 1 * 3)%nat by lia.
  apply Nat.Div0.mod_add.
Qed.

(** A fragment that encodes whole triples of bytes has no padding: the
    decoder goes on with what follows it. *)
Lemma a2b_base64_whole bs s :
  (length bs mod 3 = 0)%nat ->
  forall l p,
    a2b_base64 (b64encode bs +:+ s) 0 l p = after_bytes bs (a2b_base64 s 0 0 0).
Proof.
  induction bs as [|a|a b|a b c rest IH] using list_ind3; intros Hlen l p.
  - cbn [b64encode]. change ("" +:+ s) with s.
    rewrite a2b_base64_quad_start. now destruct (a2b_base64 s 0 0 0).
  - discriminate Hlen.
  - discriminate Hlen.
  - rewrite length_triple in Hlen.
    cbn [b64encode]. rewrite !append_cons.
    pose proof (Byte.to_N_bounded a) as Ha.
    pose proof (Byte.to_N_bounded b) as Hb.
    pose proof (Byte.to_N_bounded c) as Hc.
    rewrite !a2b_base64_data by sextets.
    rewrite (IH Hlen), !after_bytes_emit.
    f_equal. f_equal; [|f_equal; [|f_equal]]; apply byte_of_N_eq; sextets.
Qed.

(** A fragment that encodes one or two bytes more ends in padding: the
    decoder stops there and never reads what follows it. *)
Lemma a2b_base64_cut bs s :
  (length bs mod 3 <> 0)%nat ->
  forall l p, a2b_base64 (b64encode bs +:+ s) 0 l p = Ok bs.
Proof.
  induction bs as [|a|a b|a b c rest IH] using list_ind3; intros Hlen l p.
  - done.
  - cbn [b64encode]. rewrite !append_cons.
    pose proof (Byte.to_N_bounded a) as Ha.
    rewrite !a2b_base64_data by sextets.
    change (a2b_base64 (String pad (String pad ("" +:+ s))) 2
              ((Byte.to_N a mod 4 * 16) mod 16) 0)
      with (Ok [] : result bytes).
    cbn [emit]. do 2 f_equal. apply byte_of_N_eq. sextets.
  - cbn [b64encode]. rewrite !append_cons.
    pose proof (Byte.to_N_bounded a) as Ha.
    pose proof (Byte.to_N_bounded b) as Hb.
    rewrite !a2b_base64_data by sextets.
    change (a2b_base64 (String pad ("" +:+ s)) 3
              ((Byte.to_N b mod 16 * 4) mod 4) 0)
      with (Ok [] : result bytes).
    cbn [emit]. f_equal. f_equal; [|f_equal]; apply byte_of_N_eq; sextets.
  - rewrite length_triple in Hlen.
    cbn [b64encode]. rewrite !append_cons.
    pose proof (Byte.to_N_bounded a) as Ha.
    pose proof (Byte.to_N_bounded b) as Hb.
    pose proof (Byte.to_N_bounded c) as Hc.
    rewrite !a2b_base64_data by sextets.
    rewrite (IH Hlen). cbn [emit].
    f_equal. f_equal; [|f_equal; [|f_equal]]; apply byte_of_N_eq; sextets.
Qed.

Lemma is_ascii_app s1 s2 :
  is_ascii (s1 +:+ s2) = is_ascii s1 && is_ascii s2.
Proof.
  induction s1 as [|c s1 IH]; [done|].
  rewrite append_cons. cbn [is_ascii]. now rewrite IH, andb_assoc.
Qed.

Lemma is_ascii_joined fragments :
  forallb is_ascii fragments = true -> is_ascii (joined fragments) = true.
Proof.
  induction fragments as [|f fragments IH]; [done|].
  cbn [forallb]. intros [Hf Hrest]%andb_prop.
  change (joined (f :: fragments)) with (f +:+ joined fragments).
  now rewrite is_ascii_app, Hf, IH.
Qed.

Lemma a2b_base64_whole_chunks chunks last :
  forallb (fun c => (length c mod 3 =? 0)%nat) chunks = true ->
  a2b_base64 (joined (map b64encode (chunks ++ [last]))) 0 0 0 =
  Ok (concat chunks ++ last)%list.
Proof.
  induction chunks as [|chunk chunks IH]; cbn [forallb].
  - intros _. cbn [app map concat].
    change (joined [b64encode last]) with (b64encode last +:+ "").
    destruct (Nat.eq_dec (length last mod 3)%nat 0%nat) as [Hlen|Hlen].
    + rewrite a2b_base64_whole by done. cbn. now rewrite app_nil_r.
    + now rewrite a2b_base64_cut.
  - intros [Hlen Hrest]%andb_prop. apply Nat.eqb_eq in Hlen.
    rewrite <- app_comm_cons. cbn [map concat].
    change (joined (b64encode chunk :: ?l))
      with (b64encode chunk +:+ joined l).
    rewrite a2b_base64_whole, (IH Hrest) by done. cbn.
    now rewrite app_assoc.
Qed.

End Base64Stream.

(** X19: when every fragment but the last encodes a multiple of three
    bytes, the single decode of the accumulated reply yields the bytes
    of the fragments, in order. *)
Theorem X19_unpadded_fragments_decode_whole codec w chunks last rest fs :
  forallb (fun c => (length c mod 3 =? 0)%nat) chunks = true ->
  let fragments := map Base64.b64encode (chunks ++ [last]) in
  receive codec w "" (map audio_delta fragments ++ audio_done :: rest) fs =
    save_reply codec (joined fragments) fs /\
  Base64.b64decode (joined fragments) = Ok (concat chunks ++ last)%list.
Proof.
  intros Hwhole fragments. split.
  - rewrite receive_fragments.
    change ("" +:+ joined fragments) with (joined fragments).
    apply receive_done.
  - unfold Base64.b64decode.
    rewrite Base64Stream.is_ascii_joined.
    + now apply Base64Stream.a2b_base64_whole_chunks.
    + unfold fragments. rewrite forallb_forall. intros f Hf.
      apply in_map_iff in Hf as (c & <- & _).
      apply Base64Facts.b64encode_ascii.
Qed.

Lemma X19_unpadded_fragments_decode_whole_witness :
  Base64.b64decode (joined ["QUJD"; "REVG"; "Rw=="]) =
  Ok ["A"; "B"; "C"; "D"; "E"; "F"; "G"]%byte.
Proof.
  exact (proj2 (X19_unpadded_fragments_decode_whole demo_codec silent_world
    [["A"; "B"; "C"]%byte; ["D"; "E"; "F"]%byte] ["G"%byte] [] ∅ eq_refl)).
Defined.

(** X20: when the first fragment encodes a number of bytes that is not a
    multiple of three, the single decode of the accumulated reply yields
    the bytes of that fragment alone, whatever the later fragments
    hold. *)
Theorem X20_padded_fragment_cuts_reply codec w first others rest fs :
  (length first mod 3 <> 0)%nat ->
  forallb Base64.is_ascii others = true ->
  let fragments := Base64.b64encode first :: others in
  receive codec w "" (map audio_delta fragments ++ audio_done :: rest) fs =
    save_reply codec (joined fragments) fs /\
  Base64.b64decode (joined fragments) = Ok first.
Proof.
  intros Hlen Hascii fragments. split.
  - rewrite receive_fragments.
    change ("" +:+ joined fragments) with (joined fragments).
    apply receive_done.
  - unfold Base64.b64decode, fragments.
    rewrite Base64Stream.is_ascii_joined.
    + change (joined (Base64.b64encode first :: others))
        with (Base64.b64encode first +:+ joined others).
      now apply Base64Stream.a2b_base64_cut.
    + cbn [forallb]. now rewrite Base64Facts.b64encode_ascii, Hascii.
Qed.

Lemma X20_padded_fragment_cuts_reply_witness :
  Base64.b64decode (joined [Base64.b64encode ["A"; "B"]%byte; "QUJD"; "REVG"])
  = Ok ["A"; "B"]%byte.
Proof.
  refine (proj2 (X20_padded_fragment_cuts_reply demo_codec silent_world
    ["A"; "B"]%byte
    ["QUJD"; "REVG"] [] ∅ _ eq_refl)).
  cbn. lia.
Defined.

(** ** A whole turn *)

Lemma save_reply_whole codec acc pcm_audio fs :
  Base64.b64decode acc = Ok pcm_audio ->
  Z.of_nat (length pcm_audio) mod 2 = 0 ->
  save_reply codec acc fs =
  (<["output.wav" :=
       wav_container codec
         {| raw_data := pcm_audio; sample_width := 2; frame_rate := 24000;
            channels := 1 |}]> fs,
   reply_saved, Ret tt).
Proof.
  intros Hdec Hwhole. unfold save_reply. mrun. rewrite Hdec. mrun.
  unfold reply_segment, AudioSegment_init. change (2 * 1) with 2.
  rewrite Hwhole. cbn [Z.eqb]. mrun. reflexivity.
Qed.

(** X21: a turn in which every stage succeeds. The job is pending for
    some polls and then succeeds with a [redacted_audio] output; the
    speech service takes both messages and sends fragments and then
    [response.audio.done]; the accumulated reply decodes to whole
    frames. The run then ends
    normally; its trace is the submit, the pending turns, the last poll,
    the opening of the session and the two lines of the saved reply, and
    it leaves [input.wav], [processed_output.wav] and [output.wav]
    written with the recording, the decoded artifact and the container
    of the decoded reply. *)
Theorem X21_whole_turn
    cfg codec w wav d u pend r later sm skipped m rest b64 data audio
    fragments more pcm_audio fs :
  mic w = Some wav ->
  status_code (detect_reply w) = 200 ->
  json_body (detect_reply w) = Some (JObj d) ->
  d !! "status_url" = Some (JStr u) ->
  status_replies w = (pend ++ r :: later)%list ->
  forallb still_pending pend = true ->
  snapshot r = Some sm ->
  sm !! "status" = Some (JStr "SUCCESS") ->
  sm !! "output" = Some (JArr (skipped ++ JObj m :: rest)) ->
  forallb other_artifact skipped = true ->
  redacted_artifact (JObj m) = true ->
  m !! "processedFile" = Some (JStr b64) ->
  Base64.b64decode b64 = Ok data ->
  from_file codec data = Some audio ->
  ws_session w = Some (map audio_delta fragments ++ audio_done :: more)%list ->
  (2 <= ws_accepts w)%nat ->
  Base64.b64decode (joined fragments) = Ok pcm_audio ->
  Z.of_nat (length pcm_audio) mod 2 = 0 ->
  exists status_id,
    py_last (split "/" u) = Ok status_id /\
    run cfg codec w fs =
    (<["output.wav" :=
         wav_container codec
           {| raw_data := pcm_audio; sample_width := 2; frame_rate := 24000;
              channels := 1 |}]>
       (<["processed_output.wav" := data]> (<["input.wav" := wav]> fs)),
     (submit_trace cfg wav
      ++ concat (replicate (length pend) (pending_turn cfg status_id))
      ++ [poll_request cfg status_id]
      ++ session_opening cfg
           (Base64.b64encode (raw_data (to_model_format codec audio)))
      ++ reply_saved)%list,
     Ret tt).
Proof.
  intros Hmic Hcode Hbody Hurl Hreplies Hpend Hsnap Hs Hout Hskip Hred Hfile
    Hdec Haudio Hws Haccepts Hreply Hwhole.
  destruct (run_main_polling cfg codec w wav d u fs Hmic Hcode Hbody Hurl)
    as (status_id & Hlast & Hrun).
  exists status_id. split; [exact Hlast|].
  rewrite Hrun, Hreplies, poll_loop_pending by done.
  rewrite (poll_loop_success _ _ _ _ _ _ _ _ _ Hsnap Hs Hout).
  rewrite for_outputs_skip, for_outputs_redacted by done.
  rewrite (run_forward_redacted _ _ _ _ _ _ _ _ _ Hfile Hdec Haudio Hws
             Haccepts).
  rewrite receive_fragments, receive_done.
  change ("" +:+ joined fragments) with (joined fragments).
  rewrite (save_reply_whole _ _ _ _ Hreply Hwhole).
  cbn [pre]. rewrite <- ?app_assoc. reflexivity.
Qed.

Lemma X21_whole_turn_witness :
  exists status_id,
    py_last (split "/" "https://detect.example/v1/detect/status/job-1")
      = Ok status_id /\
    run demo_config demo_codec whole_turn_world ∅ =
    (<["output.wav" := ["A"; "B"; "C"; "D"]%byte]>
       (<["processed_output.wav" := ["A"; "B"; "C"; "D"]%byte]>
          (<["input.wav" := ["R"; "I"; "F"; "F"]%byte]> ∅)),
     (submit_trace demo_config ["R"; "I"; "F"; "F"]%byte
      ++ concat (replicate 1 (pending_turn demo_config status_id))
      ++ [poll_request demo_config status_id]
      ++ session_opening demo_config "QUJDRA=="
      ++ reply_saved)%list,
     Ret tt).
Proof.
  exact (X21_whole_turn demo_config demo_codec whole_turn_world
    ["R"; "I"; "F"; "F"]%byte
    (list_to_map
       [("status_url", JStr "https://detect.example/v1/detect/status/job-1")])
    "https://detect.example/v1/detect/status/job-1"
    [status_reply "PENDING" []]
    (status_reply "SUCCESS"
       [artifact "entities" "e30="; artifact "redacted_audio" "QUJDRA=="])
    []
    (list_to_map
       [("status", JStr "SUCCESS");
        ("output", JArr [artifact "entities" "e30=";
                         artifact "redacted_audio" "QUJDRA=="])])
    [artifact "entities" "e30="]
    (list_to_map [("processedFileType", JStr "redacted_audio");
                  ("processedFile", JStr "QUJDRA==")])
    [] "QUJDRA==" ["A"; "B"; "C"; "D"]%byte
    {| raw_data := ["A"; "B"; "C"; "D"]%byte; sample_width := 2;
       frame_rate := 44100; channels := 1 |}
    ["QUJD"; "RA=="] [] ["A"; "B"; "C"; "D"]%byte ∅
    eq_refl eq_refl eq_refl eq_refl eq_refl eq_refl eq_refl eq_refl eq_refl
    eq_refl eq_refl eq_refl eq_refl eq_refl eq_refl (le_n 2) eq_refl eq_refl).
Defined.

(** ** What no run does *)

Section OtherFiles.
Context (cfg : config) (codec : pydub) (w : world) (path : string).
Hypothesis not_input : path <> "input.wav".
Hypothesis not_processed : path <> "processed_output.wav".
Hypothesis not_output : path <> "output.wav".

Ltac keeps_other :=
  repeat first
    [ apply keeps_bind; [|intros ?]
    | apply keeps_ret | apply keeps_raise | apply keeps_blocked
    | apply keeps_lift | apply keeps_act | apply keeps_print
    | apply keeps_read
    | apply keeps_write; congruence
    | apply keeps_open; congruence
    | match goal with
      | |- keeps _ (if ?b then _ else _) => destruct b
      | |- keeps _ (match ?x with _ => _ end) => destruct x
      end ].

Lemma keeps_other_on_message acc message :
  keeps path (on_message codec acc message).
Proof. unfold on_message, save_reply, json_loads. keeps_other. Qed.

Lemma keeps_other_receive messages :
  forall acc, keeps path (receive codec w acc messages).
Proof.
  induction messages as [|message rest IH]; intros acc; cbn [receive].
  - destruct (ws_closing w); [apply keeps_ret | apply keeps_raise].
  - apply keeps_bind; [apply keeps_other_on_message|].
    intros [acc'|]; [apply IH | apply keeps_ret].
Qed.

Lemma keeps_other_forward_redacted output :
  keeps path (forward_redacted cfg codec w output).
Proof.
  unfold forward_redacted, audio_to_base64, send_audio, ws_send.
  keeps_other. apply keeps_other_receive.
Qed.

Lemma keeps_other_for_outputs outputs :
  keeps path (for_outputs cfg codec w outputs).
Proof.
  induction outputs as [|output rest IH]; cbn [for_outputs].
  - apply keeps_ret.
  - apply keeps_bind; [apply keeps_lift|]. intros ty.
    destruct (py_eq_str ty "redacted_audio");
      [apply keeps_other_forward_redacted | apply IH].
Qed.

Lemma keeps_other_poll_once status_id reply :
  keeps path (poll_once cfg codec w status_id reply).
Proof.
  unfold poll_once, check_status, requests_get, response_json.
  keeps_other. apply keeps_other_for_outputs.
Qed.

Lemma keeps_other_poll_loop status_id replies :
  keeps path (poll_loop cfg codec w status_id replies).
Proof.
  induction replies as [|reply later IH]; cbn [poll_loop].
  - apply keeps_blocked.
  - apply keeps_bind; [apply keeps_other_poll_once|].
    intros [|]; [apply IH | apply keeps_ret].
Qed.

Lemma keeps_other_main : keeps path (main cfg codec w).
Proof.
  unfold main, record_audio, detect_audio, convert_wav_to_base64,
    requests_post, response_json.
  keeps_other. apply keeps_other_poll_loop.
Qed.
End OtherFiles.

(** X22: whatever the services answer and however the run ends, it
    touches no local file but [input.wav], [processed_output.wav] and
    [output.wav]. *)
Theorem X22_only_three_files cfg codec w fs path :
  path <> "input.wav" ->
  path <> "processed_output.wav" ->
  path <> "output.wav" ->
  (run cfg codec w fs).1.1 !! path = fs !! path.
Proof.
  intros Hinput Hprocessed Houtput.
  now apply (keeps_other_main cfg codec w path).
Qed.

Lemma X22_only_three_files_witness :
  (run demo_config demo_codec whole_turn_world
     {["notes.txt" := ["h"; "i"]%byte]}).1.1 !! "notes.txt"
  = ({["notes.txt" := ["h"; "i"]%byte]} : gmap string bytes) !! "notes.txt".
Proof.
  apply (X22_only_three_files demo_config demo_codec whole_turn_world
           {["notes.txt" := ["h"; "i"]%byte]} "notes.txt"); discriminate.
Defined.

Section Session.
Context (cfg : config) (codec : pydub) (w : world).

Lemma speech_trace_none t :
  forallb not_speech t = true -> speech_trace t = [].
Proof.
  apply filter_none. intros e. unfold not_speech. now destruct (is_speech e).
Qed.

Lemma session_shape_after t1 t2 :
  speech_trace t1 = [] -> session_shape cfg t2 -> session_shape cfg (t1 ++ t2).
Proof.
  unfold session_shape, speech_trace. intros H1 H2.
  now rewrite List.filter_app, H1.
Qed.

Lemma forward_redacted_shape output fs :
  session_shape cfg (forward_redacted cfg codec w output fs).1.2.
Proof.
  unfold forward_redacted. rewrite run_lift_bind.
  destruct (py_getitem output "processedFile") as [v|e]; [|now left].
  mrun. destruct (py_b64decode v) as [data|e]; [|now left].
  mrun. rewrite insert_insert_eq, run_bind.
  unfold audio_to_base64. mrun. rewrite lookup_insert_eq.
  destruct (from_file codec data) as [audio|]; [|now left].
  mrun. destruct (ws_session w) as [messages|]; [|right; now left].
  unfold send_audio, ws_send. mrun.
  destruct (0 <? ws_accepts w)%nat; [|right; now left].
  mrun. destruct (1 <? ws_accepts w)%nat.
  - mrun.
    pose proof (emits_receive codec w messages ""
                  (<["processed_output.wav" := data]> fs)) as Hprints.
    destruct (receive codec w "" messages _) as [[fs' t] o].
    cbn in Hprints |- *.
    right. right. eexists. right. unfold speech_trace. cbn.
    rewrite (filter_none is_speech is_print t); [reflexivity| |done].
    now intros [].
  - right. right. eexists. left. reflexivity.
Qed.

Lemma for_outputs_shape outputs fs :
  session_shape cfg (for_outputs cfg codec w outputs fs).1.2.
Proof.
  induction outputs as [|output rest IH]; cbn [for_outputs]; [now left|].
  rewrite run_lift_bind.
  destruct (py_getitem output "processedFileType") as [ty|e]; [|now left].
  destruct (py_eq_str ty "redacted_audio");
    [apply forward_redacted_shape | apply IH].
Qed.

Lemma poll_loop_shape status_id replies fs :
  session_shape cfg (poll_loop cfg codec w status_id replies fs).1.2.
Proof.
  revert fs. induction replies as [|r later IH]; intros fs; cbn [poll_loop].
  { now left. }
  rewrite run_bind.
  destruct (has_status "SUCCESS" r) eqn:Hsuccess.
  - unfold has_status in Hsuccess.
    destruct (snapshot r) as [m|] eqn:Hsnap; [|done].
    apply py_eq_str_true in Hsuccess.
    rewrite (poll_once_success _ _ _ _ _ _ _ Hsnap Hsuccess), run_lift_bind.
    destruct (rbind _ _) as [outputs|e]; [|now left].
    rewrite run_then_ret.
    pose proof (for_outputs_shape outputs fs) as Hshape.
    destruct (for_outputs cfg codec w outputs fs) as [[fs' t] [[]| |]];
      cbn in Hshape |- *; rewrite ?app_nil_r;
      now apply (session_shape_after [poll_request cfg status_id]).
  - destruct (poll_once_without_success cfg codec w status_id r fs Hsuccess)
      as (t & o & -> & Hquiet).
    apply speech_trace_none in Hquiet.
    destruct o as [[|]| |]; cbn; try (left; exact Hquiet).
    + specialize (IH fs).
      destruct (poll_loop cfg codec w status_id later fs) as [[fs' t'] o'].
      cbn in IH |- *. now apply session_shape_after.
    + rewrite app_nil_r. now left.
Qed.
End Session.

(** X23: in every run the exchanges with the speech service are, in this
    order, at most one connection, to [URL_WS] with the bearer and beta
    headers, then at most the conversation item, then at most the
    request for a response: none of them, the connection alone, the
    connection and the item (the second [send] found the connection
    closed), or all three. *)
Theorem X23_one_session_two_messages cfg codec w fs :
  session_shape cfg (run cfg codec w fs).1.2.
Proof.
  destruct (run_before_polling cfg codec w fs)
    as [(fs' & t & o & Hrun & Hquiet)|(wav & status_id & Hmic & Hrun)].
  - rewrite Hrun. left. cbn.
    now apply speech_trace_none, before_polling_not_speech.
  - rewrite Hrun.
    pose proof (poll_loop_shape cfg codec w status_id (status_replies w)
                  (<["input.wav" := wav]> fs)) as Hshape.
    destruct (poll_loop cfg codec w status_id _ _) as [[fs' t] o].
    cbn in Hshape |- *.
    now apply (session_shape_after cfg (submit_trace cfg wav)).
Qed.
